(** * mcp_example_resources: resource descriptors and the two providers

    A shallow embedding of [mcp_example_resources/base.py],
    [publichttpresource.py] and [privateresourceexample.py], with the
    properties of the descriptor schema, of URI parameter substitution and
    of the two providers' dispatch and error paths.

    Conventions.
    - A Python [str] is a [string]; its characters are the bytes of the
      literal.
    - A Python [dict] whose iteration order is observable (the parameters
      mapping walked by [substitute_parameters], the [properties] object
      built by [get_parameter_schema]) is an association list in insertion
      order, written through [dict_set].
    - The attribute namespace of a provider instance, which [hasattr] and
      [getattr] consult, is a [gmap string attribute].
    - A coroutine is a computation in the monad [M]: it threads the log of
      outbound GET requests and ends in a value or in a raised exception. *)

From Stdlib Require Import ZArith Ascii DecimalString.
From stdpp Require Import base strings list gmap.

Local Open Scope Z_scope.

(** ** Python strings *)

Module PyStr.

(** [str(n)] for an [int]. *)
Definition of_int (n : Z) : string := NilZero.string_of_int (Z.to_int n).

(** [c in s]. *)
Fixpoint has_char (c : ascii) (s : string) : bool :=
  match s with
  | EmptyString => false
  | String a s' => if Ascii.eqb a c then true else has_char c s'
  end.

(** [s.startswith(p)]. *)
Definition startswith (s p : string) : bool := String.prefix p s.

(** [s.startswith((p1, p2, ...))]: some member of the tuple is a prefix. *)
Definition startswith_any (s : string) (ps : list string) : bool :=
  existsb (startswith s) ps.

(** The scan of [s.replace(old, new)] for a non-empty [old]: left to right,
    a match of [old] at the current position emits [new] and resumes after
    the match ([skip] counts the characters of the match still to pass);
    otherwise the current character is copied. *)
Fixpoint replace_from (old new : string) (skip : nat) (s : string) : string :=
  match s with
  | EmptyString => EmptyString
  | String c s' =>
      match skip with
      | S k => replace_from old new k s'
      | O =>
          if String.prefix old s
          then new +:+ replace_from old new (Nat.pred (String.length old)) s'
          else String c (replace_from old new O s')
      end
  end.

(** [s.replace("", new)]: [new] before every character and at the end. *)
Fixpoint replace_empty (new : string) (s : string) : string :=
  match s with
  | EmptyString => new
  | String c s' => new +:+ String c (replace_empty new s')
  end.

(** [s.replace(old, new)]. *)
Definition replace (s old new : string) : string :=
  match old with
  | EmptyString => replace_empty new s
  | String _ _ => replace_from old new O s
  end.

(** [c.lower()] on the ASCII letters; other bytes are kept. *)
Definition lower_ascii (c : ascii) : ascii :=
  let n := nat_of_ascii c in
  if (65 <=? n)%nat && (n <=? 90)%nat then ascii_of_nat (n + 32) else c.

(** [s.lower()] for a string of ASCII characters. *)
Fixpoint lower (s : string) : string :=
  match s with
  | EmptyString => EmptyString
  | String c s' => String (lower_ascii c) (lower s')
  end.

End PyStr.

(** ** Python values met in a parameters mapping *)

Inductive pyval : Type :=
  | PStr (s : string)
  | PInt (n : Z)
  | PBool (b : bool)
  | PNone.

(** [str(value)]. *)
Definition py_str (v : pyval) : string :=
  match v with
  | PStr s => s
  | PInt n => PyStr.of_int n
  | PBool true => "True"
  | PBool false => "False"
  | PNone => "None"
  end.

(** ** Insertion-ordered dictionaries *)

Section Dict.
Context {V : Type}.

(** [d.get(k)]. *)
Fixpoint dict_get (k : string) (d : list (string * V)) : option V :=
  match d with
  | [] => None
  | (k', v) :: d' => if String.eqb k' k then Some v else dict_get k d'
  end.

(** [d[k] = v]: an existing key keeps its position and takes the new value,
    a new key goes to the end. *)
Fixpoint dict_set (k : string) (v : V) (d : list (string * V)) : list (string * V) :=
  match d with
  | [] => [(k, v)]
  | (k', v') :: d' =>
      if String.eqb k' k then (k', v) :: d' else (k', v') :: dict_set k v d'
  end.

(** [list(d.keys())]. *)
Definition dict_keys (d : list (string * V)) : list string := map fst d.

End Dict.

(** A parameters mapping, [Dict[str, Any]], in iteration order. *)
Definition params : Type := list (string * pyval).

(** [parameters or {}] for an [Optional[Dict[str, Any]]]: [None] and the
    empty mapping both give the empty mapping. *)
Definition or_empty (parameters : option params) : params :=
  match parameters with
  | Some (p :: ps) => p :: ps
  | _ => []
  end.

(** The truth value of an [Optional[Dict[str, Any]]] in [if parameters:]. *)
Definition truthy (parameters : option params) : bool :=
  match parameters with
  | Some (_ :: _) => true
  | _ => false
  end.

(** ** JSON-like values: the schema and definition objects *)

#[warnings="-register-all"]
Inductive json : Type :=
  | JStr (s : string)
  | JList (items : list json)
  | JObj (fields : list (string * json)).

(** [obj.get(k)] on a value; [None] also when the value is not an object. *)
Definition json_get (k : string) (j : json) : option json :=
  match j with
  | JObj fields => dict_get k fields
  | _ => None
  end.

(** ** base.py: the data model *)

Inductive ResourceAccessType : Type := PUBLIC | MCP_SERVER.

(** [allowed_values: Union[str, List[str]]]. *)
Inductive allowed : Type :=
  | AllowedTag (tag : string)
  | AllowedList (values : list string).

Module ResourceParameter.

Record t : Type := mk {
  name : string;
  description : string;
  allowed_values : allowed;
}.

End ResourceParameter.

(** The body shared, word for word, by [ResourceConfig.get_parameter_schema]
    and [Resource.get_parameter_schema]. *)
Module Schema.

(** One iteration's [param_schema]. *)
Definition param_schema (param : ResourceParameter.t) : list (string * json) :=
  let param_schema := [("description", JStr (ResourceParameter.description param))] in
  match ResourceParameter.allowed_values param with
  | AllowedTag tag =>
      if String.eqb tag "string" then dict_set "type" (JStr "string") param_schema
      else if String.eqb tag "number" then dict_set "type" (JStr "number") param_schema
      else if String.eqb tag "boolean" then dict_set "type" (JStr "boolean") param_schema
      else dict_set "type" (JStr "string") param_schema
  | AllowedList values =>
      dict_set "enum" (JList (map JStr values))
        (dict_set "type" (JStr "string") param_schema)
  end.

(** The loop state: [properties] and [required]. *)
Definition acc : Type := list (string * json) * list string.

(** One iteration: [properties[param.name] = param_schema] and
    [required.append(param.name)]. *)
Definition step (st : acc) (param : ResourceParameter.t) : acc :=
  (dict_set (ResourceParameter.name param) (JObj (param_schema param)) st.1,
   st.2 ++ [ResourceParameter.name param]).

Definition loop (resource_parameters : list ResourceParameter.t) : acc :=
  fold_left step resource_parameters ([], []).

Definition get_parameter_schema (resource_parameters : list ResourceParameter.t) : json :=
  match resource_parameters with
  | [] => JObj [("type", JStr "object"); ("properties", JObj [])]
  | _ :: _ =>
      let '(properties, required) := loop resource_parameters in
      JObj [("type", JStr "object");
            ("properties", JObj properties);
            ("required", JList (map JStr required))]
  end.

End Schema.

Module ResourceConfig.

Record t : Type := mk {
  name : string;
  description : string;
  type : string;
  access : ResourceAccessType;
  uri : string;
  function : option string;
  resource_parameters : list ResourceParameter.t;
  params : list (string * pyval);
}.

Definition get_parameter_schema (self : t) : json :=
  Schema.get_parameter_schema (resource_parameters self).

Definition mime_types : list (string * string) :=
  [("csv", "text/csv"); ("txt", "text/plain"); ("json", "application/json");
   ("xml", "application/xml"); ("html", "text/html"); ("pdf", "application/pdf")].

Definition _get_mime_type (self : t) : string :=
  default "text/plain" (dict_get (PyStr.lower (type self)) mime_types).

Definition to_mcp_def (self : t) : json :=
  let resource_def :=
    [("name", JStr (name self)); ("description", JStr (description self));
     ("uri", JStr (uri self)); ("mimeType", JStr (_get_mime_type self))] in
  match resource_parameters self with
  | [] => JObj resource_def
  | _ :: _ => JObj (dict_set "parameters" (get_parameter_schema self) resource_def)
  end.

End ResourceConfig.

(** ** base.py: [Resource] *)

Module Resource.

(** [f"{{{key}}}"]. *)
Definition placeholder (key : string) : string := "{" +:+ key +:+ "}".

(** [substitute_parameters]: the loop over [parameters.items()], each step
    rewriting [result]. *)
Fixpoint substitute_parameters (uri : string) (parameters : params) : string :=
  match parameters with
  | [] => uri
  | (key, value) :: rest =>
      substitute_parameters (PyStr.replace uri (placeholder key) (py_str value)) rest
  end.

(** [validate_parameters]: [parameters or {}]. *)
Definition validate_parameters (parameters : option params) : params :=
  or_empty parameters.

(** [get_parameter_schema], over [self.resource_parameters]. *)
Definition get_parameter_schema (resource_parameters : list ResourceParameter.t) : json :=
  Schema.get_parameter_schema resource_parameters.

End Resource.

(** ** Coroutines: exceptions and the log of outbound requests *)

(** The exceptions the code raises or catches. [RequestError] is
    [httpx.RequestError]; [Exception] is any other exception the HTTP client
    raises. Each carries what [str(e)] returns. *)
Inductive exn : Type :=
  | ValueError (msg : string)
  | TypeError (msg : string)
  | AttributeError (msg : string)
  | IndexError (msg : string)
  | RequestError (msg : string)
  | Exception (msg : string).

(** [str(e)]. *)
Definition exn_str (e : exn) : string :=
  match e with
  | ValueError msg | TypeError msg | AttributeError msg
  | IndexError msg | RequestError msg | Exception msg => msg
  end.

(** [isinstance(e, httpx.RequestError)]. *)
Definition is_RequestError (e : exn) : bool :=
  match e with RequestError _ => true | _ => false end.

Inductive result (A : Type) : Type :=
  | Ok (a : A)
  | Raise (e : exn).
Arguments Ok {A} a.
Arguments Raise {A} e.

(** The URLs of the GET requests issued so far, oldest first. *)
Definition log : Type := list string.

(** A coroutine run to completion. *)
Definition M (A : Type) : Type := log -> result A * log.

Definition ret {A} (a : A) : M A := fun l => (Ok a, l).

Definition raise {A} (e : exn) : M A := fun l => (Raise e, l).

Definition bind {A B} (m : M A) (k : A -> M B) : M B :=
  fun l => match m l with
           | (Ok a, l') => k a l'
           | (Raise e, l') => (Raise e, l')
           end.

(** [try: body except ... as e: handler(e)]. *)
Definition try_except {A} (body : M A) (handler : exn -> M A) : M A :=
  fun l => match body l with
           | (Ok a, l') => (Ok a, l')
           | (Raise e, l') => handler e l'
           end.

Notation "'do' x <- m ; k" := (bind m (fun x => k))
  (at level 10, x name, m at level 100, k at level 200).

(** What the code reads of an [httpx.Response]. *)
Record response : Type := mk_response {
  status_code : Z;
  text : string;
}.

(** The world outside: what a GET of a URL does, given the requests made
    before it; it answers with a response or raises. *)
Definition upstream : Type := log -> string -> result response.

(** [await client.get(url)] inside [async with httpx.AsyncClient()]. *)
Definition client_get (net : upstream) (url : string) : M response :=
  fun l => (net l url, l ++ [url]).

(** ** The raise sites, by the error kind the specification gives them *)

Module Errors.

(** AmbiguousSelectionError. *)
Definition ambiguous_selection : exn :=
  ValueError "Multi-resource classes need specific resource selection".

(** NotFoundError. *)
Definition not_found (resource_name : string) : exn :=
  ValueError ("Resource '" +:+ resource_name +:+ "' not found").

(** InvalidTargetError. *)
Definition invalid_target (url : string) : exn :=
  ValueError ("Invalid URL scheme for public resource: " +:+ url).

(** UpstreamStatusError. *)
Definition upstream_status (status : Z) (url : string) : exn :=
  ValueError ("HTTP error " +:+ PyStr.of_int status +:+ " when fetching " +:+ url).

(** TransportError. *)
Definition transport (url cause : string) : exn :=
  ValueError ("Failed to fetch resource from " +:+ url +:+ ": " +:+ cause).

(** The generic failure of the last [except] clause. *)
Definition unexpected (url cause : string) : exn :=
  ValueError ("Unexpected error fetching " +:+ url +:+ ": " +:+ cause).

(** UnconfiguredHandlerError. *)
Definition no_function (resource_name : string) : exn :=
  ValueError ("No function specified for mcp_server resource '" +:+ resource_name +:+ "'").

(** HandlerResolutionError. *)
Definition function_not_found (function_name : string) : exn :=
  ValueError ("Function '" +:+ function_name +:+ "' not found in resource class").

(** Calling a value that is not callable. *)
Definition not_callable (type_name : string) : exn :=
  TypeError ("'" +:+ type_name +:+ "' object is not callable").

End Errors.

(** ** The two providers' shared selection code *)

(** The loop of [get_resource_content]: the first descriptor, in order,
    whose name equals [resource_name]; [None] when the loop ends without
    [break]. *)
Fixpoint find_resource (resource_name : string) (resource_instances : list ResourceConfig.t)
  : option ResourceConfig.t :=
  match resource_instances with
  | [] => None
  | res :: rest =>
      if String.eqb (ResourceConfig.name res) resource_name then Some res
      else find_resource resource_name rest
  end.

(** [self.resource_instances[0]]. *)
Definition first_instance (resource_instances : list ResourceConfig.t) : M ResourceConfig.t :=
  match resource_instances with
  | res :: _ => ret res
  | [] => raise (IndexError "list index out of range")
  end.

(** ** publichttpresource.py *)

Module HttpResource.

Record t : Type := mk {
  class_name : string;
  class_description : string;
  resource_instances : list ResourceConfig.t;
}.

(** The URL after the optional substitution step. *)
Definition target_url (resource_config : ResourceConfig.t) (parameters : option params)
  : string :=
  let url := ResourceConfig.uri resource_config in
  if truthy parameters
  then Resource.substitute_parameters url (Resource.validate_parameters parameters)
  else url.

Definition _fetch_http_content (net : upstream) (self : t)
    (resource_config : ResourceConfig.t) (parameters : option params) : M string :=
  let url := target_url resource_config parameters in
  if negb (PyStr.startswith_any url ["http://"; "https://"])
  then raise (Errors.invalid_target url)
  else
    try_except
      (do response <- client_get net url;
       if status_code response =? 200
       then ret (text response)
       else raise (Errors.upstream_status (status_code response) url))
      (fun e =>
         if is_RequestError e
         then raise (Errors.transport url (exn_str e))
         else raise (Errors.unexpected url (exn_str e))).

Definition get_content (net : upstream) (self : t) (parameters : option params) : M string :=
  if (length (resource_instances self) =? 1)%nat
  then do res <- first_instance (resource_instances self);
       _fetch_http_content net self res parameters
  else raise Errors.ambiguous_selection.

Definition get_resource_content (net : upstream) (self : t)
    (resource_name : string) (parameters : option params) : M string :=
  match find_resource resource_name (resource_instances self) with
  | None => raise (Errors.not_found resource_name)
  | Some resource_config => _fetch_http_content net self resource_config parameters
  end.

Definition get_resources (self : t) : list json :=
  map ResourceConfig.to_mcp_def (resource_instances self).

End HttpResource.

(** ** privateresourceexample.py *)

Module ExamplePrivateResources.

(** What [getattr(self, name)] can give: a coroutine method that takes the
    parameters mapping, or a value that is not callable (of the named
    type). *)
Inductive attribute : Type :=
  | Coroutine (method : params -> M string)
  | NotCallable (type_name : string).

Record t : Type := mk {
  class_name : string;
  class_description : string;
  resource_instances : list ResourceConfig.t;
  (** The names [hasattr(self, _)] accepts, with what [getattr] returns. *)
  attrs : gmap string attribute;
}.

(** [await function_method(arg)]. *)
Definition call (function_method : attribute) (arg : params) : M string :=
  match function_method with
  | Coroutine method => method arg
  | NotCallable type_name => raise (Errors.not_callable type_name)
  end.

Definition _get_mcp_content (self : t) (resource_config : ResourceConfig.t)
    (parameters : option params) : M string :=
  match ResourceConfig.function resource_config with
  | None => (* [not None] *) raise (Errors.no_function (ResourceConfig.name resource_config))
  | Some function_name =>
      if String.eqb function_name ""
      then (* [not ""] *) raise (Errors.no_function (ResourceConfig.name resource_config))
      else
        match attrs self !! function_name with
        | Some function_method => call function_method (or_empty parameters)
        | None => raise (Errors.function_not_found function_name)
        end
  end.

Definition get_content (self : t) (parameters : option params) : M string :=
  if (length (resource_instances self) =? 1)%nat
  then do res <- first_instance (resource_instances self);
       _get_mcp_content self res parameters
  else raise Errors.ambiguous_selection.

Definition get_resource_content (self : t)
    (resource_name : string) (parameters : option params) : M string :=
  match find_resource resource_name (resource_instances self) with
  | None => raise (Errors.not_found resource_name)
  | Some resource_config => _get_mcp_content self resource_config parameters
  end.

(** [parameters.get("client", "").lower()]; a value that is not a [str] has
    no [lower]. *)
Definition client_of (parameters : params) : M string :=
  match dict_get "client" parameters with
  | None => ret (PyStr.lower "")
  | Some (PStr s) => ret (PyStr.lower s)
  | Some (PInt _) => raise (AttributeError "'int' object has no attribute 'lower'")
  | Some (PBool _) => raise (AttributeError "'bool' object has no attribute 'lower'")
  | Some PNone => raise (AttributeError "'NoneType' object has no attribute 'lower'")
  end.

Definition _sample_parameterized_resource (parameters : params) : M string :=
  do client <- client_of parameters;
  if String.eqb client "acme" then ret "This is the roadrunner client"
  else if String.eqb client "bigrock" then ret "We make tools to smash birds"
  else ret ("Unknown client: " +:+ client +:+ ". Available clients: acme, bigrock").

Definition get_resources (self : t) : list json :=
  map ResourceConfig.to_mcp_def (resource_instances self).

(** The instance [__init__] builds from a dict configuration: besides
    [resource_instances] it assigns the data attributes [resources_config],
    [class_name] and [class_description], and the class body defines the
    handler [_sample_parameterized_resource]. The framework-facing methods
    of the class are attributes as well; they are not handlers of any
    configuration and the table leaves them out, so it is to be consulted
    at the names it lists and at names the class does not define. *)
Definition init (name description : string) (resources : list ResourceConfig.t) : t :=
  {| class_name := name;
     class_description := description;
     resource_instances := resources;
     attrs :=
       <["_sample_parameterized_resource" := Coroutine _sample_parameterized_resource]>
       (<["resources_config" := NotCallable "list"]>
       (<["resource_instances" := NotCallable "list"]>
       (<["class_name" := NotCallable "str"]>
       (<["class_description" := NotCallable "str"]> ∅)))) |}.

End ExamplePrivateResources.

(** ** URI templates: what substitution is meant to compute

    The reading of a URI as text interleaved with [{name}] placeholders, and
    the one-pass substitution the specification describes: a placeholder
    whose name is a key becomes the string form of the key's value, and
    everything else stays. *)

Module Template.

Inductive segment : Type :=
  | Lit (text : string)
  | Hole (name : string).

Definition render_segment (seg : segment) : string :=
  match seg with
  | Lit text => text
  | Hole name => Resource.placeholder name
  end.

Fixpoint render (tpl : list segment) : string :=
  match tpl with
  | [] => ""
  | seg :: rest => render_segment seg +:+ render rest
  end.

Definition fill_segment (parameters : params) (seg : segment) : string :=
  match seg with
  | Lit text => text
  | Hole name =>
      match dict_get name parameters with
      | Some value => py_str value
      | None => Resource.placeholder name
      end
  end.

Fixpoint fill (parameters : params) (tpl : list segment) : string :=
  match tpl with
  | [] => ""
  | seg :: rest => fill_segment parameters seg +:+ fill parameters rest
  end.

(** No opening brace. *)
Definition open_free (s : string) : bool := negb (PyStr.has_char "{" s).

(** Neither brace. *)
Definition brace_free (s : string) : bool :=
  negb (PyStr.has_char "{" s) && negb (PyStr.has_char "}" s).

(** Text opens no placeholder; a placeholder's name holds no brace. *)
Definition segment_ok (seg : segment) : bool :=
  match seg with
  | Lit text => open_free text
  | Hole name => brace_free name
  end.

Definition template_ok (tpl : list segment) : bool := forallb segment_ok tpl.

(** Keys hold no brace; the string form of a value opens no placeholder. *)
Definition params_ok (parameters : params) : bool :=
  forallb (fun kv => brace_free kv.1 && open_free (py_str kv.2)) parameters.

(** One key's step on a template: its placeholders become text. *)
Definition plug (key new : string) (seg : segment) : segment :=
  match seg with
  | Lit text => Lit text
  | Hole name => if String.eqb name key then Lit new else Hole name
  end.

End Template.

(** ** Sample inputs *)

(** A descriptor with the given parameters, for the examples. *)
Definition descriptor (name uri : string) (function : option string)
    (resource_parameters : list ResourceParameter.t) : ResourceConfig.t :=
  ResourceConfig.mk name "" "txt" PUBLIC uri function resource_parameters [].

Module Sample.

(** An upstream that answers every request with the given status and body. *)
Definition answering (status : Z) (body : string) : upstream :=
  fun _ _ => Ok (mk_response status body).

Definition report : ResourceConfig.t := descriptor "report" "http://h/report" None [].

Definition item : ResourceConfig.t :=
  descriptor "item" "{scheme}://h/items/{id}" None
    [ResourceParameter.mk "scheme" "" (AllowedTag "string");
     ResourceParameter.mk "id" "" (AllowedTag "number")].

(** A second descriptor that reuses the name [report]. *)
Definition report_again : ResourceConfig.t :=
  descriptor "report" "http://h/other" None [].

Definition http (resources : list ResourceConfig.t) : HttpResource.t :=
  HttpResource.mk "http_resources" "Public HTTP resource types" resources.

Definition sample : ResourceConfig.t :=
  descriptor "sample" "mcp://sample" (Some "_sample_parameterized_resource")
    [ResourceParameter.mk "client" "" (AllowedList ["acme"; "bigrock"])].

(** A descriptor whose handler name is an attribute that is no method. *)
Definition mislabelled : ResourceConfig.t :=
  descriptor "mislabelled" "mcp://mislabelled" (Some "class_name") [].

Definition unbound : ResourceConfig.t :=
  descriptor "unbound" "mcp://unbound" (Some "no_such_function") [].

Definition silent : ResourceConfig.t := descriptor "silent" "mcp://silent" None [].

(** A second descriptor that reuses the name [sample]. *)
Definition sample_again : ResourceConfig.t := descriptor "sample" "mcp://other" None [].

Definition private (resources : list ResourceConfig.t) : ExamplePrivateResources.t :=
  ExamplePrivateResources.init "example_private_resources"
    "Example private resource types" resources.

End Sample.

(** ** [__init__] from a dict configuration

    The branch [isinstance(config, dict)] of [HttpResource.__init__] and of
    [ExamplePrivateResources.__init__], which is the same text in both: it
    turns the payload under [params.resources] into [resource_instances].
    (The two attributes [class_name] and [class_description] it also sets
    are read by no method.)

    A payload value is [None], a string, a list or a dict with string keys.
    Numbers and booleans are left out: whether a string field accepts them
    depends on the version of the validation library. *)

#[warnings="-register-all"]
Inductive pyobj : Type :=
  | ONone
  | OStr (s : string)
  | OList (items : list pyobj)
  | ODict (entries : list (string * pyobj)).

Module Construction.

(** The exceptions that end a construction. *)
Inductive error : Type :=
  (** [d[key]] on a dict without the key. *)
  | KeyError (key : string)
  (** [AttributeError]: a value of this type has no [get]. *)
  | NoGet (type_name : string)
  (** [TypeError]: a value of this type is not iterable. *)
  | NotIterable (type_name : string)
  (** [TypeError]: the value unpacked as keyword arguments is of this type,
      not a mapping. *)
  | NotMapping (type_name : string)
  (** [ValueError]: the value is not a valid [ResourceAccessType]. *)
  | InvalidAccessType (value : pyobj)
  (** The validation error of the named model. *)
  | ValidationError (model : string).

Inductive outcome (A : Type) : Type :=
  | Built (a : A)
  | Fails (e : error).
Arguments Built {A} a.
Arguments Fails {A} e.

Definition and_then {A B} (m : outcome A) (k : A -> outcome B) : outcome B :=
  match m with
  | Built a => k a
  | Fails e => Fails e
  end.

Notation "'attempt' x <- m ; k" := (and_then m (fun x => k))
  (at level 10, x name, m at level 100, k at level 200).

(** A loop that builds a list, one element after the other, and stops at
    the first exception. *)
Fixpoint for_each {A B} (f : A -> outcome B) (items : list A) : outcome (list B) :=
  match items with
  | [] => Built []
  | item :: rest =>
      attempt b <- f item;
      attempt bs <- for_each f rest;
      Built (b :: bs)
  end.

(** [type(v).__name__]. *)
Definition type_name (v : pyobj) : string :=
  match v with
  | ONone => "NoneType"
  | OStr _ => "str"
  | OList _ => "list"
  | ODict _ => "dict"
  end.

(** [bool(v)]. *)
Definition truth (v : pyobj) : bool :=
  match v with
  | ONone | OStr EmptyString | OList [] | ODict [] => false
  | _ => true
  end.

(** [v or {}]. *)
Definition or_dict (v : pyobj) : pyobj := if truth v then v else ODict [].

(** [v.get(key, default)]. *)
Definition get (v : pyobj) (key : string) (fallback : pyobj) : outcome pyobj :=
  match v with
  | ODict entries => Built (default fallback (dict_get key entries))
  | _ => Fails (NoGet (type_name v))
  end.

(** [d[key]]. *)
Definition subscript (entries : list (string * pyobj)) (key : string) : outcome pyobj :=
  match dict_get key entries with
  | Some v => Built v
  | None => Fails (KeyError key)
  end.

(** The characters of a string, each a string. *)
Fixpoint chars (s : string) : list pyobj :=
  match s with
  | EmptyString => []
  | String c s' => OStr (String c EmptyString) :: chars s'
  end.

(** What [for x in v] walks through. *)
Definition iterate (v : pyobj) : outcome (list pyobj) :=
  match v with
  | OList items => Built items
  | OStr s => Built (chars s)
  | ODict entries => Built (map (fun kv => OStr kv.1) entries)
  | ONone => Fails (NotIterable "NoneType")
  end.

(** Validation of a [str] field. *)
Definition str_field (model : string) (v : pyobj) : outcome string :=
  match v with
  | OStr s => Built s
  | _ => Fails (ValidationError model)
  end.

(** Validation of an [Optional[str]] field. *)
Definition optional_str_field (model : string) (v : pyobj) : outcome (option string) :=
  match v with
  | ONone => Built None
  | OStr s => Built (Some s)
  | _ => Fails (ValidationError model)
  end.

(** Validation of a [Union[str, List[str]]] field. *)
Definition allowed_field (model : string) (v : pyobj) : outcome allowed :=
  match v with
  | OStr tag => Built (AllowedTag tag)
  | OList items =>
      attempt values <- for_each (str_field model) items;
      Built (AllowedList values)
  | _ => Fails (ValidationError model)
  end.

(** [ResourceParameter] called with the entries of [param] as keyword
    arguments: [name] is required, [description] defaults to the empty
    string and [allowed_values] to the tag [string]; other keys are allowed
    and ignored. *)
Definition ResourceParameter_of (param : pyobj) : outcome ResourceParameter.t :=
  match param with
  | ODict entries =>
      attempt name <-
        match dict_get "name" entries with
        | Some v => str_field "ResourceParameter" v
        | None => Fails (ValidationError "ResourceParameter")
        end;
      attempt description <-
        str_field "ResourceParameter" (default (OStr "") (dict_get "description" entries));
      attempt allowed_values <-
        allowed_field "ResourceParameter"
          (default (OStr "string") (dict_get "allowed_values" entries));
      Built (ResourceParameter.mk name description allowed_values)
  | _ => Fails (NotMapping (type_name param))
  end.

(** [ResourceAccessType(value)]. *)
Definition ResourceAccessType_of (value : pyobj) : outcome ResourceAccessType :=
  match value with
  | OStr s =>
      if String.eqb s "public" then Built PUBLIC
      else if String.eqb s "mcp_server" then Built MCP_SERVER
      else Fails (InvalidAccessType value)
  | _ => Fails (InvalidAccessType value)
  end.

(** The inner loop, over [resource_config.get("resource_parameters", [])]. *)
Definition declared_parameters (resource_config : pyobj)
  : outcome (list ResourceParameter.t) :=
  attempt declared <- get resource_config "resource_parameters" (OList []);
  attempt items <- iterate declared;
  for_each ResourceParameter_of items.

(** The body of the loop over [self.resources_config]: first the inner
    loop over [resource_parameters], then the arguments of
    [ResourceConfig(...)] from left to right, then the validation of the
    model. *)
Definition resource_config_of (resource_config : pyobj) : outcome ResourceConfig.t :=
  attempt resource_params <- declared_parameters resource_config;
  match resource_config with
  | ODict entries =>
      attempt name <- subscript entries "name";
      attempt description <- subscript entries "description";
      attempt type <- subscript entries "type";
      attempt access_value <- subscript entries "access";
      attempt access <- ResourceAccessType_of access_value;
      attempt uri <- subscript entries "uri";
      let function := default ONone (dict_get "function" entries) in
      attempt name <- str_field "ResourceConfig" name;
      attempt description <- str_field "ResourceConfig" description;
      attempt type <- str_field "ResourceConfig" type;
      attempt uri <- str_field "ResourceConfig" uri;
      attempt function <- optional_str_field "ResourceConfig" function;
      Built (ResourceConfig.mk name description type access uri function resource_params [])
  | _ => Fails (NoGet (type_name resource_config))
  end.

(** [self.resource_instances] at the end of [__init__]. *)
Definition resource_instances_of (config : list (string * pyobj))
  : outcome (list ResourceConfig.t) :=
  let params := or_dict (default ONone (dict_get "params" config)) in
  attempt resources_config <- get params "resources" (OList []);
  attempt items <- iterate resources_config;
  for_each resource_config_of items.

(** The dict a descriptor is configured by, every key written out. *)
Definition allowed_payload (a : allowed) : pyobj :=
  match a with
  | AllowedTag tag => OStr tag
  | AllowedList values => OList (map OStr values)
  end.

Definition parameter_payload (param : ResourceParameter.t) : pyobj :=
  ODict [("name", OStr (ResourceParameter.name param));
         ("description", OStr (ResourceParameter.description param));
         ("allowed_values", allowed_payload (ResourceParameter.allowed_values param))].

Definition access_payload (access : ResourceAccessType) : pyobj :=
  match access with
  | PUBLIC => OStr "public"
  | MCP_SERVER => OStr "mcp_server"
  end.

Definition descriptor_payload (cfg : ResourceConfig.t) : pyobj :=
  ODict [("name", OStr (ResourceConfig.name cfg));
         ("description", OStr (ResourceConfig.description cfg));
         ("type", OStr (ResourceConfig.type cfg));
         ("access", access_payload (ResourceConfig.access cfg));
         ("uri", OStr (ResourceConfig.uri cfg));
         ("function",
           match ResourceConfig.function cfg with
           | Some function_name => OStr function_name
           | None => ONone
           end);
         ("resource_parameters",
           OList (map parameter_payload (ResourceConfig.resource_parameters cfg)))].

(** The configuration of a provider over the given descriptors. *)
Definition provider_payload (name : string) (resources : list pyobj)
  : list (string * pyobj) :=
  [("name", OStr name); ("params", ODict [("resources", OList resources)])].

End Construction.

(** ** More sample inputs *)

Module Sample2.

(** A descriptor that declares the name [id] twice. *)
Definition twice : ResourceConfig.t :=
  descriptor "twice" "http://h/{id}" None
    [ResourceParameter.mk "id" "first" (AllowedTag "number");
     ResourceParameter.mk "mode" "" (AllowedList ["fast"; "slow"]);
     ResourceParameter.mk "id" "second" (AllowedTag "anything")].

(** An upstream whose connection fails. *)
Definition unreachable : upstream := fun _ _ => Raise (RequestError "connection refused").


End Sample2.

(** * Properties *)

Example substitute_items :
  Resource.substitute_parameters "/items/{id}" [("id", PStr "42")] = "/items/42".
Proof. reflexivity. Qed.

Example substitute_chain :
  Resource.substitute_parameters "{a}" [("a", PStr "{b}"); ("b", PStr "c")] = "c".
Proof. reflexivity. Qed.

Example schema_two :
  Schema.get_parameter_schema
    [ResourceParameter.mk "client" "who" (AllowedList ["acme"; "bigrock"]);
     ResourceParameter.mk "n" "" (AllowedTag "number")]
  = JObj [("type", JStr "object");
          ("properties",
            JObj [("client", JObj [("description", JStr "who"); ("type", JStr "string");
                                   ("enum", JList [JStr "acme"; JStr "bigrock"])]);
                  ("n", JObj [("description", JStr ""); ("type", JStr "number")])]);
          ("required", JList [JStr "client"; JStr "n"])].
Proof. reflexivity. Qed.

(** ** Strings *)

Lemma string_app_nil (s : string) : "" +:+ s = s.
Proof. reflexivity. Qed.

Lemma string_app_cons (x : ascii) (a b : string) :
  String x a +:+ b = String x (a +:+ b).
Proof. reflexivity. Qed.

Lemma string_app_assoc (a b c : string) : (a +:+ b) +:+ c = a +:+ (b +:+ c).
Proof.
  induction a as [|x a IH]; [done |].
  by rewrite !string_app_cons, IH.
Qed.

Lemma prefix_head_ne (a c : ascii) (p s : string) :
  a ≠ c → String.prefix (String a p) (String c s) = false.
Proof. intros Hne. simpl. by destruct (ascii_dec a c). Qed.

Lemma prefix_head_eq (a : ascii) (p s : string) :
  String.prefix (String a p) (String a s) = String.prefix p s.
Proof. simpl. by destruct (ascii_dec a a). Qed.

Lemma prefix_app (p s : string) : String.prefix p (p +:+ s) = true.
Proof.
  induction p as [|a p IH]; [by destruct s |].
  by rewrite string_app_cons, prefix_head_eq.
Qed.

Lemma replace_from_skip (old new a s : string) :
  PyStr.replace_from old new (String.length a) (a +:+ s)
  = PyStr.replace_from old new 0 s.
Proof.
  induction a as [|x a IH]; [done |].
  rewrite string_app_cons. simpl. exact IH.
Qed.

Section Replace.
Variables old new : string.

Lemma replace_from_scan (c : ascii) (s : string) :
  PyStr.replace_from old new 0 (String c s)
  = if String.prefix old (String c s)
    then new +:+ PyStr.replace_from old new (Nat.pred (String.length old)) s
    else String c (PyStr.replace_from old new 0 s).
Proof. reflexivity. Qed.

Lemma replace_from_copy (c : ascii) (s : string) :
  String.prefix old (String c s) = false →
  PyStr.replace_from old new 0 (String c s)
  = String c (PyStr.replace_from old new 0 s).
Proof. intros H. by rewrite replace_from_scan, H. Qed.

Lemma replace_from_match (s : string) :
  old ≠ "" →
  PyStr.replace_from old new 0 (old +:+ s)
  = new +:+ PyStr.replace_from old new 0 s.
Proof.
  intros Hne.
  destruct (old +:+ s) as [|c r] eqn:E.
  { destruct old; [done | discriminate E]. }
  rewrite replace_from_scan, <- E, prefix_app. f_equal.
  destruct old as [|a p]; [done |].
  rewrite string_app_cons in E. injection E as -> <-.
  apply replace_from_skip.
Qed.

End Replace.

(** ** Substitution on templates *)

Section TemplateFacts.
Import Template.

Lemma has_char_cons_false (c a : ascii) (s : string) :
  PyStr.has_char c (String a s) = false ↔ a ≠ c ∧ PyStr.has_char c s = false.
Proof.
  simpl. destruct (Ascii.eqb_spec a c) as [->|Hne]; split.
  - done.
  - by intros [? _].
  - done.
  - by intros [_ ?].
Qed.

Lemma open_free_cons (a : ascii) (s : string) :
  open_free (String a s) = true ↔ a ≠ "{"%char ∧ open_free s = true.
Proof.
  unfold open_free. rewrite !negb_true_iff. apply has_char_cons_false.
Qed.

Lemma brace_free_cons (a : ascii) (s : string) :
  brace_free (String a s) = true
  ↔ a ≠ "{"%char ∧ a ≠ "}"%char ∧ brace_free s = true.
Proof.
  unfold brace_free. rewrite !andb_true_iff, !negb_true_iff, !has_char_cons_false.
  tauto.
Qed.

Lemma brace_free_open_free (s : string) : brace_free s = true → open_free s = true.
Proof. unfold brace_free, open_free. by intros [? _]%andb_true_iff. Qed.

Lemma placeholder_cons (key : string) :
  Resource.placeholder key = String "{" (key +:+ "}").
Proof. reflexivity. Qed.

(** Text that opens no placeholder is copied as it stands. *)
Lemma replace_from_text (key new text s : string) :
  open_free text = true →
  PyStr.replace_from (Resource.placeholder key) new 0 (text +:+ s)
  = text +:+ PyStr.replace_from (Resource.placeholder key) new 0 s.
Proof.
  induction text as [|a text IH]; [done |].
  intros [Ha Htext]%open_free_cons.
  rewrite !string_app_cons, replace_from_copy, IH; [done .. |].
  rewrite placeholder_cons. by apply prefix_head_ne.
Qed.

(** Two brace-free names are told apart by the closing brace. *)
Lemma prefix_name_close (key name s : string) :
  brace_free key = true → brace_free name = true →
  String.prefix (key +:+ "}") (name +:+ "}" +:+ s) = true → name = key.
Proof.
  revert name. induction key as [|a key IH]; intros [|c name] Hkey Hname Hpre.
  - done.
  - apply brace_free_cons in Hname as (_ & Hc & _).
    rewrite string_app_nil, string_app_cons in Hpre.
    rewrite prefix_head_ne in Hpre; [done | congruence].
  - apply brace_free_cons in Hkey as (_ & Ha & _).
    rewrite string_app_nil, !string_app_cons in Hpre.
    rewrite prefix_head_ne in Hpre; done.
  - apply brace_free_cons in Hkey as (_ & _ & Hkey).
    apply brace_free_cons in Hname as (_ & _ & Hname).
    rewrite !string_app_cons in Hpre. simpl in Hpre.
    destruct (ascii_dec a c) as [->|]; [| done].
    f_equal. by apply IH.
Qed.

(** A placeholder of another name is copied as it stands. *)
Lemma replace_from_other (key new name s : string) :
  brace_free key = true → brace_free name = true → name ≠ key →
  PyStr.replace_from (Resource.placeholder key) new 0 (Resource.placeholder name +:+ s)
  = Resource.placeholder name +:+ PyStr.replace_from (Resource.placeholder key) new 0 s.
Proof.
  intros Hkey Hname Hne.
  rewrite (placeholder_cons name), !string_app_cons, string_app_assoc.
  rewrite replace_from_copy.
  - f_equal. rewrite replace_from_text by by apply brace_free_open_free.
    rewrite string_app_assoc. f_equal.
  - rewrite placeholder_cons, prefix_head_eq.
    destruct (String.prefix _ _) eqn:Hpre; [| done].
    by apply prefix_name_close in Hpre.
Qed.

(** A placeholder is never the empty pattern. *)
Lemma replace_placeholder (s key new : string) :
  PyStr.replace s (Resource.placeholder key) new
  = PyStr.replace_from (Resource.placeholder key) new 0 s.
Proof. reflexivity. Qed.

Lemma replace_render (key new : string) (tpl : list segment) :
  brace_free key = true → template_ok tpl = true →
  PyStr.replace (render tpl) (Resource.placeholder key) new
  = render (map (plug key new) tpl).
Proof.
  intros Hkey. rewrite replace_placeholder.
  induction tpl as [|seg tpl IH]; [done |].
  intros [Hseg Htpl]%andb_true_iff. specialize (IH Htpl).
  destruct seg as [text|name]; cbn [map plug render render_segment].
  - by rewrite replace_from_text, IH.
  - cbn [segment_ok] in Hseg.
    destruct (String.eqb_spec name key) as [->|Hne]; cbn [render render_segment].
    + by rewrite replace_from_match, IH.
    + by rewrite replace_from_other, IH.
Qed.

Lemma plug_ok (key new : string) (tpl : list segment) :
  open_free new = true → template_ok tpl = true →
  template_ok (map (plug key new) tpl) = true.
Proof.
  intros Hnew. induction tpl as [|seg tpl IH]; [done |].
  intros [Hseg Htpl]%andb_true_iff. simpl. rewrite (IH Htpl), andb_true_r.
  destruct seg as [text|name]; simpl; [done |].
  by destruct (String.eqb name key).
Qed.

Lemma fill_nil (tpl : list segment) : fill [] tpl = render tpl.
Proof. induction tpl as [|[text|name] tpl IH]; simpl; by rewrite ?IH. Qed.

Lemma fill_plug (key : string) (value : pyval) (ps : params) (tpl : list segment) :
  fill ((key, value) :: ps) tpl = fill ps (map (plug key (py_str value)) tpl).
Proof.
  induction tpl as [|[text|name] tpl IH]; simpl; [done | by rewrite IH |].
  rewrite <- IH, String.eqb_sym. by destruct (String.eqb name key).
Qed.

Lemma substitute_render (ps : params) (tpl : list segment) :
  template_ok tpl = true → params_ok ps = true →
  Resource.substitute_parameters (render tpl) ps = fill ps tpl.
Proof.
  revert tpl. induction ps as [|[key value] ps IH]; intros tpl Htpl Hps.
  - by rewrite fill_nil.
  - apply andb_true_iff in Hps as [[Hkey Hval]%andb_true_iff Hps].
    cbn [fst snd] in Hkey, Hval. cbn [Resource.substitute_parameters].
    rewrite replace_render, IH, fill_plug; auto using plug_ok.
Qed.

End TemplateFacts.

(** C1 (as amended): when the URI is a template of text that opens no
    placeholder and of [{name}] placeholders with brace-free names, and
    the mapping's keys are brace-free and the string forms of its values
    contain no opening brace, [substitute_parameters] returns the template
    with every placeholder whose name is a key replaced by the string form
    of that key's value, and with all text and every placeholder whose name
    is not a key unchanged. *)
Theorem substitute_parameters_fills_template
    (tpl : list Template.segment) (parameters : params) :
  Template.template_ok tpl = true →
  Template.params_ok parameters = true →
  Resource.substitute_parameters (Template.render tpl) parameters
  = Template.fill parameters tpl.
Proof. apply substitute_render. Qed.

(** The instance of the specification: [/items/{id}] with [id] bound to
    [42]. *)
Lemma substitute_parameters_items :
  Template.template_ok [Template.Lit "/items/"; Template.Hole "id"] = true
  ∧ Template.params_ok [("id", PStr "42")] = true
  ∧ Resource.substitute_parameters "/items/{id}" [("id", PStr "42")] = "/items/42".
Proof.
  split; [reflexivity |]. split; [reflexivity |].
  exact (substitute_parameters_fills_template
           [Template.Lit "/items/"; Template.Hole "id"] [("id", PStr "42")]
           eq_refl eq_refl).
Defined.

(** C1 as stated fails: a value that is itself placeholder-shaped is
    rewritten by a later key. The URI is the single placeholder [{a}]; its
    replacement by the string form of [a]'s value would be [{b}], and the
    code returns [c]. *)
Lemma substitute_parameters_collision :
  Resource.substitute_parameters (Template.render [Template.Hole "a"])
    [("a", PStr "{b}"); ("b", PStr "c")] = "c"
  ∧ Template.fill [("a", PStr "{b}"); ("b", PStr "c")] [Template.Hole "a"] = "{b}"
  ∧ Resource.substitute_parameters (Template.render [Template.Hole "a"])
      [("a", PStr "{b}"); ("b", PStr "c")]
    ≠ Template.fill [("a", PStr "{b}"); ("b", PStr "c")] [Template.Hole "a"].
Proof. split; [reflexivity |]. split; [reflexivity |]. discriminate. Qed.

(** Further inputs outside the amended claim's conditions. A key holding
    braces spans two placeholders whose names are not keys. *)
Example substitute_key_with_braces :
  Resource.substitute_parameters "{a}{b}" [("a}{b", PStr "x")] = "x".
Proof. reflexivity. Qed.

(** A URI with a brace inside a placeholder: the inner replacement builds a
    new placeholder for a later key. *)
Example substitute_nested_uri :
  Resource.substitute_parameters "{x{a}y}" [("a", PStr "1"); ("x1y", PStr "Z")] = "Z".
Proof. reflexivity. Qed.

(** With no brace involved the order of the keys does not matter. *)
Example substitute_two_keys :
  Resource.substitute_parameters "http://h/{a}/{b}/{c}" [("b", PInt 7); ("a", PStr "u")]
  = "http://h/u/7/{c}".
Proof. reflexivity. Qed.

(** ** The parameter schema *)

Lemma dict_keys_set_fresh {V} (k : string) (v : V) (d : list (string * V)) :
  k ∉ dict_keys d → dict_keys (dict_set k v d) = dict_keys d ++ [k].
Proof.
  induction d as [|[k' v'] d IH]; [done |].
  intros Hk. cbn [dict_set]. apply not_elem_of_cons in Hk as [Hne Hk].
  destruct (String.eqb_spec k' k) as [->|_]; [done |].
  cbn. f_equal. by apply IH.
Qed.

Lemma loop_names (ps : list ResourceParameter.t) (st : Schema.acc) :
  NoDup (dict_keys st.1 ++ map ResourceParameter.name ps) →
  dict_keys (fold_left Schema.step ps st).1
    = dict_keys st.1 ++ map ResourceParameter.name ps
  ∧ (fold_left Schema.step ps st).2 = st.2 ++ map ResourceParameter.name ps.
Proof.
  revert st. induction ps as [|p ps IH]; intros [properties required] Hnd.
  - by rewrite !app_nil_r.
  - cbn [fold_left map]. cbn [map fst] in Hnd.
    destruct (IH (Schema.step (properties, required) p)) as [Hk Hr].
    + cbn [Schema.step fst snd]. rewrite dict_keys_set_fresh.
      * by rewrite <- app_assoc.
      * apply NoDup_app in Hnd as (_ & Hdisj & _).
        intros Hin. apply (Hdisj _ Hin). left.
    + rewrite Hk, Hr. cbn [Schema.step fst snd].
      rewrite dict_keys_set_fresh.
      * by rewrite <- !app_assoc.
      * apply NoDup_app in Hnd as (_ & Hdisj & _).
        intros Hin. apply (Hdisj _ Hin). left.
Qed.

Lemma count_occ_NoDup (l : list string) (x : string) :
  NoDup l → x ∈ l → count_occ String.eq_dec l x = 1%nat.
Proof.
  intros Hnd Hin. apply NoDup_ListNoDup in Hnd.
  apply (proj1 (NoDup_count_occ' String.eq_dec l) Hnd).
  by apply list_elem_of_In.
Qed.

(** C4 (as amended): for a descriptor with zero declared parameters the
    derived schema is exactly [{"type": "object", "properties": {}}]: an
    object schema with empty properties and no [required] entry. The same
    holds of [Resource.get_parameter_schema]. *)
Theorem schema_without_parameters (cfg : ResourceConfig.t) :
  ResourceConfig.resource_parameters cfg = [] →
  ResourceConfig.get_parameter_schema cfg
    = JObj [("type", JStr "object"); ("properties", JObj [])]
  ∧ json_get "properties" (ResourceConfig.get_parameter_schema cfg) = Some (JObj [])
  ∧ json_get "required" (ResourceConfig.get_parameter_schema cfg) = None
  ∧ Resource.get_parameter_schema (ResourceConfig.resource_parameters cfg)
    = ResourceConfig.get_parameter_schema cfg.
Proof.
  intros Hnone. unfold ResourceConfig.get_parameter_schema, Resource.get_parameter_schema.
  by rewrite Hnone.
Qed.

Lemma schema_without_parameters_plain :
  ResourceConfig.resource_parameters (descriptor "plain" "http://h/plain" None []) = []
  ∧ json_get "required"
      (ResourceConfig.get_parameter_schema (descriptor "plain" "http://h/plain" None []))
    = None.
Proof.
  split; [reflexivity |].
  exact (proj1 (proj2 (proj2
    (schema_without_parameters (descriptor "plain" "http://h/plain" None []) eq_refl)))).
Defined.

(** C4 as stated fails: the schema of a descriptor without parameters holds
    no [required] entry, so that entry is not the empty list. *)
Lemma schema_without_parameters_no_required :
  json_get "required"
    (ResourceConfig.get_parameter_schema (descriptor "plain" "http://h/plain" None []))
  ≠ Some (JList []).
Proof. discriminate. Qed.

(** C5: when the declared parameter names are pairwise distinct, the schema
    of a descriptor has a [properties] object and a [required] list in
    which the name of each declared parameter occurs exactly once. *)
Theorem schema_names_once (cfg : ResourceConfig.t) (param : ResourceParameter.t) :
  NoDup (map ResourceParameter.name (ResourceConfig.resource_parameters cfg)) →
  param ∈ ResourceConfig.resource_parameters cfg →
  ∃ properties required,
    ResourceConfig.get_parameter_schema cfg
      = JObj [("type", JStr "object");
              ("properties", JObj properties);
              ("required", JList (map JStr required))]
    ∧ count_occ String.eq_dec (dict_keys properties) (ResourceParameter.name param) = 1%nat
    ∧ count_occ String.eq_dec required (ResourceParameter.name param) = 1%nat.
Proof.
  intros Hnd Hin.
  unfold ResourceConfig.get_parameter_schema, Schema.get_parameter_schema, Schema.loop.
  destruct (loop_names (ResourceConfig.resource_parameters cfg) ([], [])) as [Hk Hr];
    [done |].
  cbn [fst snd dict_keys map app] in Hk, Hr.
  destruct (ResourceConfig.resource_parameters cfg) as [|p ps] eqn:E;
    [by apply elem_of_nil in Hin |].
  destruct (fold_left Schema.step (p :: ps) ([], [])) as [properties required].
  cbn [fst snd] in Hk, Hr. exists properties, required.
  split; [done |].
  rewrite Hk, Hr.
  split; apply count_occ_NoDup; try done;
    apply (list_elem_of_fmap_2 ResourceParameter.name _ _ Hin).
Qed.

Lemma schema_names_once_client :
  let client := ResourceParameter.mk "client" "who asks" (AllowedList ["acme"; "bigrock"]) in
  let cfg := descriptor "sample" "mcp://sample" (Some "_sample_parameterized_resource")
               [client; ResourceParameter.mk "n" "" (AllowedTag "number")] in
  ∃ properties required,
    ResourceConfig.get_parameter_schema cfg
      = JObj [("type", JStr "object");
              ("properties", JObj properties);
              ("required", JList (map JStr required))]
    ∧ count_occ String.eq_dec (dict_keys properties) "client" = 1%nat
    ∧ count_occ String.eq_dec required "client" = 1%nat.
Proof.
  intros client cfg.
  apply (schema_names_once cfg client).
  - apply (bool_decide_unpack _). vm_compute. exact I.
  - left.
Defined.

(** ** Selection by name *)

Lemma find_resource_none (resource_name : string) (resources : list ResourceConfig.t) :
  resource_name ∉ map ResourceConfig.name resources →
  find_resource resource_name resources = None.
Proof.
  induction resources as [|res rest IH]; [done |].
  cbn [map find_resource]. intros [Hne Hrest]%not_elem_of_cons.
  destruct (String.eqb_spec (ResourceConfig.name res) resource_name) as [Heq|_];
    [done | by apply IH].
Qed.

Lemma find_resource_first (resource_name : string)
    (before : list ResourceConfig.t) (res : ResourceConfig.t)
    (after : list ResourceConfig.t) :
  resource_name ∉ map ResourceConfig.name before →
  ResourceConfig.name res = resource_name →
  find_resource resource_name (before ++ res :: after) = Some res.
Proof.
  intros Hbefore Hres. induction before as [|r before IH]; cbn [app find_resource].
  - by rewrite Hres, String.eqb_refl.
  - cbn [map] in Hbefore. apply not_elem_of_cons in Hbefore as [Hne Hbefore].
    destruct (String.eqb_spec (ResourceConfig.name r) resource_name) as [Heq|_];
      [done | by apply IH].
Qed.

(** ** The HTTP provider's fetch *)

Section HttpFetch.
Variable net : upstream.
Variable self : HttpResource.t.
Variable resource_config : ResourceConfig.t.
Variable parameters : option params.

Let url := HttpResource.target_url resource_config parameters.

Lemma fetch_invalid_target :
  PyStr.startswith_any url ["http://"; "https://"] = false →
  HttpResource._fetch_http_content net self resource_config parameters
  = raise (Errors.invalid_target url).
Proof.
  intros Hscheme. unfold HttpResource._fetch_http_content. fold url.
  by rewrite Hscheme.
Qed.

Lemma fetch_status_200 (l : log) (r : response) :
  PyStr.startswith_any url ["http://"; "https://"] = true →
  net l url = Ok r → status_code r = 200 →
  HttpResource._fetch_http_content net self resource_config parameters l
  = (Ok (text r), l ++ [url]).
Proof.
  intros Hscheme Hnet Hstatus. unfold HttpResource._fetch_http_content. fold url.
  rewrite Hscheme. unfold try_except, bind, client_get. cbn [negb].
  by rewrite Hnet, Hstatus.
Qed.

(** The [ValueError] raised for a status other than 200 is raised inside the
    [try] and is caught by its last [except] clause. *)
Lemma fetch_status_other (l : log) (r : response) :
  PyStr.startswith_any url ["http://"; "https://"] = true →
  net l url = Ok r → status_code r ≠ 200 →
  HttpResource._fetch_http_content net self resource_config parameters l
  = (Raise (Errors.unexpected url
              (exn_str (Errors.upstream_status (status_code r) url))),
     l ++ [url]).
Proof.
  intros Hscheme Hnet Hstatus. unfold HttpResource._fetch_http_content. fold url.
  rewrite Hscheme. unfold try_except, bind, client_get. cbn [negb].
  rewrite Hnet. by destruct (Z.eqb_spec (status_code r) 200).
Qed.

Lemma fetch_request_error (l : log) (msg : string) :
  PyStr.startswith_any url ["http://"; "https://"] = true →
  net l url = Raise (RequestError msg) →
  HttpResource._fetch_http_content net self resource_config parameters l
  = (Raise (Errors.transport url msg), l ++ [url]).
Proof.
  intros Hscheme Hnet. unfold HttpResource._fetch_http_content. fold url.
  rewrite Hscheme. unfold try_except, bind, client_get. cbn [negb].
  by rewrite Hnet.
Qed.

End HttpFetch.

Lemma unexpected_is_not_upstream_status (url cause : string) (status : Z) (url' : string) :
  Errors.unexpected url cause ≠ Errors.upstream_status status url'.
Proof. discriminate. Qed.

(** C2, at a 404 answer: the fetch does not end in the upstream-status
    error; it ends in the generic error of the last [except] clause, whose
    message wraps the upstream-status message. A 200 answer returns the
    body. *)
Theorem fetch_404_is_wrapped :
  HttpResource._fetch_http_content (Sample.answering 404 "gone")
    (Sample.http [Sample.report]) Sample.report None []
  = (Raise (Errors.unexpected "http://h/report"
              "HTTP error 404 when fetching http://h/report"),
     ["http://h/report"])
  ∧ Errors.unexpected "http://h/report" "HTTP error 404 when fetching http://h/report"
    ≠ Errors.upstream_status 404 "http://h/report"
  ∧ HttpResource._fetch_http_content (Sample.answering 200 "body")
      (Sample.http [Sample.report]) Sample.report None []
    = (Ok "body", ["http://h/report"]).
Proof.
  split; [reflexivity |]. split; [| reflexivity].
  apply unexpected_is_not_upstream_status.
Qed.

(** C3: when the URI after substitution starts with neither [http://] nor
    [https://], the fetch raises the invalid-target error and the log of
    requests is left as it was, whatever the upstream would answer. *)
Theorem fetch_rejects_other_schemes
    (net : upstream) (self : HttpResource.t) (resource_config : ResourceConfig.t)
    (parameters : option params) (l : log) :
  PyStr.startswith_any (HttpResource.target_url resource_config parameters)
    ["http://"; "https://"] = false →
  HttpResource._fetch_http_content net self resource_config parameters l
  = (Raise (Errors.invalid_target (HttpResource.target_url resource_config parameters)), l).
Proof. intros Hscheme. by rewrite fetch_invalid_target. Qed.

Lemma fetch_rejects_ftp :
  HttpResource.target_url Sample.item (Some [("scheme", PStr "ftp"); ("id", PInt 7)])
    = "ftp://h/items/7"
  ∧ HttpResource._fetch_http_content (Sample.answering 200 "body")
      (Sample.http [Sample.item]) Sample.item
      (Some [("scheme", PStr "ftp"); ("id", PInt 7)]) []
    = (Raise (Errors.invalid_target "ftp://h/items/7"), []).
Proof.
  split; [reflexivity |].
  exact (fetch_rejects_other_schemes (Sample.answering 200 "body")
           (Sample.http [Sample.item]) Sample.item
           (Some [("scheme", PStr "ftp"); ("id", PInt 7)]) [] eq_refl).
Defined.

(** ** The function-dispatch provider's fetch *)

Section Dispatch.
Variable self : ExamplePrivateResources.t.
Variable resource_config : ResourceConfig.t.
Variable parameters : option params.

Lemma dispatch_no_function :
  ResourceConfig.function resource_config = None
  ∨ ResourceConfig.function resource_config = Some "" →
  ExamplePrivateResources._get_mcp_content self resource_config parameters
  = raise (Errors.no_function (ResourceConfig.name resource_config)).
Proof.
  unfold ExamplePrivateResources._get_mcp_content. by intros [-> | ->].
Qed.

Lemma dispatch_unbound (function_name : string) :
  ResourceConfig.function resource_config = Some function_name →
  function_name ≠ "" →
  ExamplePrivateResources.attrs self !! function_name = None →
  ExamplePrivateResources._get_mcp_content self resource_config parameters
  = raise (Errors.function_not_found function_name).
Proof.
  intros Hf Hne Hattr. unfold ExamplePrivateResources._get_mcp_content.
  rewrite Hf, Hattr. by destruct (String.eqb_spec function_name "").
Qed.

Lemma dispatch_coroutine (function_name : string) (method : params → M string) :
  ResourceConfig.function resource_config = Some function_name →
  function_name ≠ "" →
  ExamplePrivateResources.attrs self !! function_name
    = Some (ExamplePrivateResources.Coroutine method) →
  ExamplePrivateResources._get_mcp_content self resource_config parameters
  = method (or_empty parameters).
Proof.
  intros Hf Hne Hattr. unfold ExamplePrivateResources._get_mcp_content.
  rewrite Hf, Hattr. by destruct (String.eqb_spec function_name "").
Qed.

(** [hasattr] accepts a name bound to a value that is no method, and the
    call of that value fails with a [TypeError]. *)
Lemma dispatch_not_callable (function_name type_name : string) :
  ResourceConfig.function resource_config = Some function_name →
  function_name ≠ "" →
  ExamplePrivateResources.attrs self !! function_name
    = Some (ExamplePrivateResources.NotCallable type_name) →
  ExamplePrivateResources._get_mcp_content self resource_config parameters
  = raise (Errors.not_callable type_name).
Proof.
  intros Hf Hne Hattr. unfold ExamplePrivateResources._get_mcp_content.
  rewrite Hf, Hattr. by destruct (String.eqb_spec function_name "").
Qed.

End Dispatch.

Example dispatch_sample_acme :
  ExamplePrivateResources.get_resource_content (Sample.private [Sample.sample])
    "sample" (Some [("client", PStr "ACME")]) []
  = (Ok "This is the roadrunner client", []).
Proof. reflexivity. Qed.

Example dispatch_sample_unknown :
  ExamplePrivateResources.get_resource_content (Sample.private [Sample.sample])
    "sample" (Some [("client", PStr "unknown")]) []
  = (Ok "Unknown client: unknown. Available clients: acme, bigrock", []).
Proof. reflexivity. Qed.

Example dispatch_sample_default :
  ExamplePrivateResources.get_content (Sample.private [Sample.sample]) None []
  = (Ok "Unknown client: . Available clients: acme, bigrock", []).
Proof. reflexivity. Qed.

Example dispatch_silent :
  ExamplePrivateResources._get_mcp_content (Sample.private [Sample.silent])
    Sample.silent None []
  = (Raise (Errors.no_function "silent"), []).
Proof. reflexivity. Qed.

Example dispatch_unbound_name :
  ExamplePrivateResources._get_mcp_content (Sample.private [Sample.unbound])
    Sample.unbound None []
  = (Raise (Errors.function_not_found "no_such_function"), []).
Proof. reflexivity. Qed.

(** C6, at a handler name bound to a data attribute: [class_name] is an
    attribute of the instance and resolves to no method, yet the fetch does
    not end in the function-not-found error; the call of the string raises
    a [TypeError]. *)
Theorem dispatch_data_attribute :
  ExamplePrivateResources.attrs (Sample.private [Sample.mislabelled]) !! "class_name"
    = Some (ExamplePrivateResources.NotCallable "str")
  ∧ ExamplePrivateResources._get_mcp_content (Sample.private [Sample.mislabelled])
      Sample.mislabelled (Some []) []
    = (Raise (TypeError "'str' object is not callable"), [])
  ∧ TypeError "'str' object is not callable" ≠ Errors.function_not_found "class_name".
Proof. split; [reflexivity |]. split; [reflexivity | discriminate]. Qed.

(** ** [get_content] and [get_resource_content] *)

Lemma http_get_content_not_one (net : upstream) (self : HttpResource.t)
    (parameters : option params) :
  length (HttpResource.resource_instances self) ≠ 1%nat →
  HttpResource.get_content net self parameters = raise Errors.ambiguous_selection.
Proof.
  intros Hlen. unfold HttpResource.get_content.
  by destruct (Nat.eqb_spec (length (HttpResource.resource_instances self)) 1).
Qed.

Lemma http_get_content_one (net : upstream) (self : HttpResource.t)
    (parameters : option params) (res : ResourceConfig.t) :
  HttpResource.resource_instances self = [res] →
  HttpResource.get_content net self parameters
  = HttpResource._fetch_http_content net self res parameters.
Proof. intros Hone. unfold HttpResource.get_content. by rewrite Hone. Qed.

Lemma private_get_content_not_one (self : ExamplePrivateResources.t)
    (parameters : option params) :
  length (ExamplePrivateResources.resource_instances self) ≠ 1%nat →
  ExamplePrivateResources.get_content self parameters = raise Errors.ambiguous_selection.
Proof.
  intros Hlen. unfold ExamplePrivateResources.get_content.
  by destruct (Nat.eqb_spec (length (ExamplePrivateResources.resource_instances self)) 1).
Qed.

Lemma private_get_content_one (self : ExamplePrivateResources.t)
    (parameters : option params) (res : ResourceConfig.t) :
  ExamplePrivateResources.resource_instances self = [res] →
  ExamplePrivateResources.get_content self parameters
  = ExamplePrivateResources._get_mcp_content self res parameters.
Proof. intros Hone. unfold ExamplePrivateResources.get_content. by rewrite Hone. Qed.

(** C7: on either provider, [get_content] raises the ambiguous-selection
    error when the provider holds two or more descriptors, whatever the
    parameters; when it holds exactly one, [get_content] is that
    descriptor's fetch routine. *)
Theorem get_content_by_count :
  (∀ net self parameters,
     (2 ≤ length (HttpResource.resource_instances self))%nat →
     HttpResource.get_content net self parameters = raise Errors.ambiguous_selection)
  ∧ (∀ self parameters,
       (2 ≤ length (ExamplePrivateResources.resource_instances self))%nat →
       ExamplePrivateResources.get_content self parameters
       = raise Errors.ambiguous_selection)
  ∧ (∀ net self parameters res,
       HttpResource.resource_instances self = [res] →
       HttpResource.get_content net self parameters
       = HttpResource._fetch_http_content net self res parameters)
  ∧ (∀ self parameters res,
       ExamplePrivateResources.resource_instances self = [res] →
       ExamplePrivateResources.get_content self parameters
       = ExamplePrivateResources._get_mcp_content self res parameters).
Proof.
  repeat split.
  - intros net self parameters Hlen. apply http_get_content_not_one. lia.
  - intros self parameters Hlen. apply private_get_content_not_one. lia.
  - apply http_get_content_one.
  - apply private_get_content_one.
Qed.

Lemma get_content_by_count_samples :
  HttpResource.get_content (Sample.answering 200 "body")
    (Sample.http [Sample.report; Sample.item]) (Some [("id", PInt 7)])
  = raise Errors.ambiguous_selection
  ∧ ExamplePrivateResources.get_content
      (Sample.private [Sample.sample; Sample.silent]) None
    = raise Errors.ambiguous_selection
  ∧ HttpResource.get_content (Sample.answering 200 "body")
      (Sample.http [Sample.report]) None
    = HttpResource._fetch_http_content (Sample.answering 200 "body")
        (Sample.http [Sample.report]) Sample.report None
  ∧ ExamplePrivateResources.get_content (Sample.private [Sample.sample]) None
    = ExamplePrivateResources._get_mcp_content (Sample.private [Sample.sample])
        Sample.sample None.
Proof.
  destruct get_content_by_count as (Hhttp & Hprivate & Hhttp1 & Hprivate1).
  split; [| split; [| split]].
  - apply Hhttp. simpl. lia.
  - apply Hprivate. simpl. lia.
  - apply Hhttp1. reflexivity.
  - apply Hprivate1. reflexivity.
Defined.

(** C8: on either provider, [get_resource_content] raises the not-found
    error for a name that no descriptor of the provider bears, whatever the
    parameters. *)
Theorem get_resource_content_unknown_name :
  (∀ net self resource_name parameters,
     resource_name ∉ map ResourceConfig.name (HttpResource.resource_instances self) →
     HttpResource.get_resource_content net self resource_name parameters
     = raise (Errors.not_found resource_name))
  ∧ (∀ self resource_name parameters,
       resource_name
         ∉ map ResourceConfig.name (ExamplePrivateResources.resource_instances self) →
       ExamplePrivateResources.get_resource_content self resource_name parameters
       = raise (Errors.not_found resource_name)).
Proof.
  split.
  - intros net self resource_name parameters Hall.
    unfold HttpResource.get_resource_content. by rewrite find_resource_none.
  - intros self resource_name parameters Hall.
    unfold ExamplePrivateResources.get_resource_content. by rewrite find_resource_none.
Qed.

Lemma get_resource_content_nosuch :
  HttpResource.get_resource_content (Sample.answering 200 "body")
    (Sample.http [Sample.report; Sample.item]) "nosuch" (Some [])
  = raise (Errors.not_found "nosuch")
  ∧ ExamplePrivateResources.get_resource_content
      (Sample.private [Sample.sample; Sample.silent]) "nosuch"
      (Some [("client", PStr "acme")])
    = raise (Errors.not_found "nosuch").
Proof.
  destruct get_resource_content_unknown_name as [Hhttp Hprivate].
  split.
  - apply Hhttp. apply (bool_decide_unpack _). vm_compute. exact I.
  - apply Hprivate. apply (bool_decide_unpack _). vm_compute. exact I.
Defined.

(** C9: on either provider, [get_resource_content] dispatches to the first
    descriptor, in declaration order, that bears the name; the descriptors
    after it, among them any that bear the same name, play no part. *)
Theorem get_resource_content_first_match :
  (∀ net self resource_name parameters before res after,
     HttpResource.resource_instances self = before ++ res :: after →
     resource_name ∉ map ResourceConfig.name before →
     ResourceConfig.name res = resource_name →
     HttpResource.get_resource_content net self resource_name parameters
     = HttpResource._fetch_http_content net self res parameters)
  ∧ (∀ self resource_name parameters before res after,
       ExamplePrivateResources.resource_instances self = before ++ res :: after →
       resource_name ∉ map ResourceConfig.name before →
       ResourceConfig.name res = resource_name →
       ExamplePrivateResources.get_resource_content self resource_name parameters
       = ExamplePrivateResources._get_mcp_content self res parameters).
Proof.
  split.
  - intros net self resource_name parameters before res after Hlist Hbefore Hres.
    unfold HttpResource.get_resource_content.
    by rewrite Hlist, find_resource_first.
  - intros self resource_name parameters before res after Hlist Hbefore Hres.
    unfold ExamplePrivateResources.get_resource_content.
    by rewrite Hlist, find_resource_first.
Qed.

Lemma get_resource_content_duplicates :
  HttpResource.get_resource_content (Sample.answering 200 "body")
    (Sample.http [Sample.item; Sample.report; Sample.report_again]) "report" None
  = HttpResource._fetch_http_content (Sample.answering 200 "body")
      (Sample.http [Sample.item; Sample.report; Sample.report_again]) Sample.report None
  ∧ ExamplePrivateResources.get_resource_content
      (Sample.private [Sample.sample; Sample.sample_again]) "sample" None
    = ExamplePrivateResources._get_mcp_content
        (Sample.private [Sample.sample; Sample.sample_again]) Sample.sample None.
Proof.
  destruct get_resource_content_first_match as [Hhttp Hprivate].
  split.
  - apply (Hhttp _ _ _ _ [Sample.item] Sample.report [Sample.report_again]).
    + reflexivity.
    + apply (bool_decide_unpack _). vm_compute. exact I.
    + reflexivity.
  - apply (Hprivate _ _ _ [] Sample.sample [Sample.sample_again]).
    + reflexivity.
    + apply (bool_decide_unpack _). vm_compute. exact I.
    + reflexivity.
Defined.

Example duplicates_http :
  HttpResource.get_resource_content (Sample.answering 200 "body")
    (Sample.http [Sample.item; Sample.report; Sample.report_again]) "report" None []
  = (Ok "body", ["http://h/report"]).
Proof. reflexivity. Qed.

(** C10: on either provider, [get_content] on a provider that holds no
    descriptor raises the ambiguous-selection error, the one raised for two
    or more descriptors, whatever the parameters. *)
Theorem get_content_without_descriptors :
  (∀ net self parameters,
     HttpResource.resource_instances self = [] →
     HttpResource.get_content net self parameters = raise Errors.ambiguous_selection)
  ∧ (∀ self parameters,
       ExamplePrivateResources.resource_instances self = [] →
       ExamplePrivateResources.get_content self parameters
       = raise Errors.ambiguous_selection).
Proof.
  split.
  - intros net self parameters Hnone. apply http_get_content_not_one. by rewrite Hnone.
  - intros self parameters Hnone. apply private_get_content_not_one. by rewrite Hnone.
Qed.

Lemma get_content_without_descriptors_samples :
  HttpResource.get_content (Sample.answering 200 "body") (Sample.http [])
    (Some [("id", PInt 7)])
  = raise Errors.ambiguous_selection
  ∧ ExamplePrivateResources.get_content (Sample.private []) None
    = raise Errors.ambiguous_selection.
Proof.
  destruct get_content_without_descriptors as [Hhttp Hprivate].
  split.
  - apply Hhttp. reflexivity.
  - apply Hprivate. reflexivity.
Defined.

(** * Further properties of the code *)

(** ** [substitute_parameters] *)

Lemma string_app_nil_r (s : string) : s +:+ "" = s.
Proof. induction s as [|a s IH]; [done |]. by rewrite string_app_cons, IH. Qed.

(** X1: a URI that contains no opening brace comes back unchanged, whatever
    the keys and values of the mapping. *)
Theorem substitute_parameters_no_placeholder (uri : string) (parameters : params) :
  Template.open_free uri = true →
  Resource.substitute_parameters uri parameters = uri.
Proof.
  intros Huri. induction parameters as [|[key value] rest IH]; [done |].
  cbn [Resource.substitute_parameters].
  rewrite replace_placeholder, <- (string_app_nil_r uri) at 1.
  by rewrite replace_from_text, string_app_nil_r.
Qed.

Lemma substitute_parameters_no_placeholder_plain :
  Template.open_free "http://h/report}" = true
  ∧ Resource.substitute_parameters "http://h/report}"
      [("report", PStr "x"); ("}", PStr "{report}")]
    = "http://h/report}".
Proof.
  split; [reflexivity |].
  exact (substitute_parameters_no_placeholder "http://h/report}"
           [("report", PStr "x"); ("}", PStr "{report}")] eq_refl).
Defined.

(** X2: substituting a mapping whose items are those of [first] followed by
    those of [second] is substituting [first] and then [second] in the
    result. *)
Theorem substitute_parameters_app (uri : string) (first second : params) :
  Resource.substitute_parameters uri (first ++ second)
  = Resource.substitute_parameters (Resource.substitute_parameters uri first) second.
Proof.
  revert uri. induction first as [|[key value] first IH]; intros uri; [done |].
  cbn [app Resource.substitute_parameters]. apply IH.
Qed.

(** Lookup in a mapping with distinct keys does not depend on the order of
    its items. *)
Lemma dict_get_Permutation {V} (k : string) (d d' : list (string * V)) :
  NoDup (dict_keys d) → d ≡ₚ d' → dict_get k d = dict_get k d'.
Proof.
  intros Hnd Hperm. induction Hperm as [|[k1 v1] d d' Hperm IH
                                         |[k1 v1] [k2 v2] d|d d' d'' H1 IH1 H2 IH2].
  - done.
  - cbn [dict_get]. apply NoDup_cons_1_2 in Hnd. by rewrite IH.
  - cbn [dict_get]. cbn [dict_keys map fst] in Hnd.
    apply NoDup_cons_1_1 in Hnd. apply not_elem_of_cons in Hnd as [Hne _].
    destruct (String.eqb_spec k2 k) as [->|]; [| done].
    by destruct (String.eqb_spec k1 k) as [->|].
  - rewrite IH1 by done. apply IH2.
    unfold dict_keys in *. by rewrite <- H1.
Qed.

Lemma fill_Permutation (ps qs : params) (tpl : list Template.segment) :
  NoDup (dict_keys ps) → ps ≡ₚ qs → Template.fill ps tpl = Template.fill qs tpl.
Proof.
  intros Hnd Hperm. induction tpl as [|[text|name] tpl IH]; cbn; [done | by rewrite IH |].
  by rewrite IH, (dict_get_Permutation name ps qs).
Qed.

Lemma params_ok_Permutation (ps qs : params) :
  ps ≡ₚ qs → Template.params_ok ps = true → Template.params_ok qs = true.
Proof.
  unfold Template.params_ok. intros Hperm. rewrite !forallb_forall.
  intros Hall kv Hin. apply Hall. apply list_elem_of_In.
  rewrite Hperm. by apply list_elem_of_In.
Qed.

(** X3: under the brace conditions of the amended C1 and with distinct
    keys, the result does not depend on the order in which the mapping
    yields its items. *)
Theorem substitute_parameters_order
    (tpl : list Template.segment) (parameters reordered : params) :
  Template.template_ok tpl = true →
  Template.params_ok parameters = true →
  NoDup (dict_keys parameters) →
  parameters ≡ₚ reordered →
  Resource.substitute_parameters (Template.render tpl) parameters
  = Resource.substitute_parameters (Template.render tpl) reordered.
Proof.
  intros Htpl Hps Hnd Hperm.
  rewrite !substitute_render by eauto using params_ok_Permutation.
  by apply fill_Permutation.
Qed.

Lemma substitute_parameters_order_items :
  Resource.substitute_parameters "http://h/{a}/{b}" [("a", PStr "u"); ("b", PInt 7)]
  = Resource.substitute_parameters "http://h/{a}/{b}" [("b", PInt 7); ("a", PStr "u")].
Proof.
  apply (substitute_parameters_order
           [Template.Lit "http://h/"; Template.Hole "a"; Template.Lit "/"; Template.Hole "b"]
           [("a", PStr "u"); ("b", PInt 7)] [("b", PInt 7); ("a", PStr "u")]).
  - reflexivity.
  - reflexivity.
  - apply (bool_decide_unpack _). vm_compute. exact I.
  - apply perm_swap.
Defined.

(** ** The parameter schema, without the uniqueness precondition *)

Lemma dict_get_set {V} (k n : string) (v : V) (d : list (string * V)) :
  dict_get n (dict_set k v d) = if String.eqb k n then Some v else dict_get n d.
Proof.
  induction d as [|[k' v'] d IH]; cbn [dict_set dict_get]; [done |].
  destruct (String.eqb_spec k' k) as [->|Hne]; cbn [dict_get].
  - by destruct (String.eqb k n).
  - rewrite IH. destruct (String.eqb_spec k' n) as [->|]; [| done].
    by destruct (String.eqb_spec k n).
Qed.

Lemma dict_keys_set_old {V} (k : string) (v : V) (d : list (string * V)) :
  k ∈ dict_keys d → dict_keys (dict_set k v d) = dict_keys d.
Proof.
  induction d as [|[k' v'] d IH]; [by intros ?%elem_of_nil |].
  cbn [dict_set]. destruct (String.eqb_spec k' k) as [->|Hne]; [done |].
  intros [?|Hin]%elem_of_cons; [done |]. cbn. f_equal. by apply IH.
Qed.

Lemma dict_keys_set_NoDup {V} (k : string) (v : V) (d : list (string * V)) :
  NoDup (dict_keys d) → NoDup (dict_keys (dict_set k v d)).
Proof.
  intros Hnd. destruct (decide (k ∈ dict_keys d)) as [Hin|Hout].
  - by rewrite dict_keys_set_old.
  - rewrite dict_keys_set_fresh by done. apply NoDup_app.
    split; [done |]. split; [| apply NoDup_singleton].
    by intros x Hx ->%list_elem_of_singleton.
Qed.

Lemma dict_keys_set_elem {V} (k n : string) (v : V) (d : list (string * V)) :
  n ∈ dict_keys (dict_set k v d) ↔ n = k ∨ n ∈ dict_keys d.
Proof.
  destruct (decide (k ∈ dict_keys d)) as [Hin|Hout].
  - rewrite dict_keys_set_old by done. split; [by right | by intros [-> | ?]].
  - rewrite dict_keys_set_fresh, elem_of_app, list_elem_of_singleton by done. tauto.
Qed.

Lemma loop_required (ps : list ResourceParameter.t) (st : Schema.acc) :
  (fold_left Schema.step ps st).2 = st.2 ++ map ResourceParameter.name ps.
Proof.
  revert st. induction ps as [|p ps IH]; intros st; cbn [fold_left map].
  - by rewrite app_nil_r.
  - rewrite IH. cbn [Schema.step snd]. by rewrite <- app_assoc.
Qed.

Lemma loop_keys_NoDup (ps : list ResourceParameter.t) (st : Schema.acc) :
  NoDup (dict_keys st.1) → NoDup (dict_keys (fold_left Schema.step ps st).1).
Proof.
  revert st. induction ps as [|p ps IH]; intros st Hnd; cbn [fold_left]; [done |].
  apply IH. cbn [Schema.step fst]. by apply dict_keys_set_NoDup.
Qed.

Lemma loop_keys_elem (ps : list ResourceParameter.t) (st : Schema.acc) (n : string) :
  n ∈ dict_keys (fold_left Schema.step ps st).1
  ↔ n ∈ dict_keys st.1 ∨ n ∈ map ResourceParameter.name ps.
Proof.
  revert st. induction ps as [|p ps IH]; intros st; cbn [fold_left map].
  - rewrite elem_of_nil. tauto.
  - rewrite IH. cbn [Schema.step fst]. rewrite dict_keys_set_elem, elem_of_cons. tauto.
Qed.

Lemma loop_get_later (ps : list ResourceParameter.t) (st : Schema.acc) (n : string) :
  n ∉ map ResourceParameter.name ps →
  dict_get n (fold_left Schema.step ps st).1 = dict_get n st.1.
Proof.
  revert st. induction ps as [|p ps IH]; intros st Hn; cbn [fold_left]; [done |].
  cbn [map] in Hn. apply not_elem_of_cons in Hn as [Hne Hn].
  rewrite IH by done. cbn [Schema.step fst]. rewrite dict_get_set.
  by destruct (String.eqb_spec (ResourceParameter.name p) n).
Qed.

Lemma loop_get_last (before : list ResourceParameter.t) (p : ResourceParameter.t)
    (after : list ResourceParameter.t) (st : Schema.acc) :
  ResourceParameter.name p ∉ map ResourceParameter.name after →
  dict_get (ResourceParameter.name p) (fold_left Schema.step (before ++ p :: after) st).1
  = Some (JObj (Schema.param_schema p)).
Proof.
  intros Hafter. rewrite fold_left_app. cbn [fold_left].
  rewrite loop_get_later by done. cbn [Schema.step fst].
  by rewrite dict_get_set, String.eqb_refl.
Qed.

(** The schema of a descriptor that declares a parameter, by its parts. *)
Lemma schema_with_parameters (cfg : ResourceConfig.t) :
  ResourceConfig.resource_parameters cfg ≠ [] →
  ResourceConfig.get_parameter_schema cfg
  = JObj [("type", JStr "object");
          ("properties", JObj (Schema.loop (ResourceConfig.resource_parameters cfg)).1);
          ("required",
            JList (map JStr (Schema.loop (ResourceConfig.resource_parameters cfg)).2))].
Proof.
  unfold ResourceConfig.get_parameter_schema, Schema.get_parameter_schema.
  destruct (ResourceConfig.resource_parameters cfg) as [|p ps]; [done | intros _].
  by destruct (Schema.loop (p :: ps)).
Qed.

(** X4: when a descriptor declares parameters, the [required] list of its
    schema is the declared names in declaration order, a repeated name as
    often as it is declared. *)
Theorem schema_required_in_order (cfg : ResourceConfig.t) :
  ResourceConfig.resource_parameters cfg ≠ [] →
  json_get "required" (ResourceConfig.get_parameter_schema cfg)
  = Some (JList (map JStr
       (map ResourceParameter.name (ResourceConfig.resource_parameters cfg)))).
Proof.
  intros Hsome. rewrite schema_with_parameters by done.
  unfold Schema.loop. by rewrite loop_required.
Qed.

(** X5: the [properties] object of a schema has one key per declared name:
    its keys are free of duplicates, and a name is a key exactly when some
    parameter declares it. *)
Theorem schema_properties_keys (cfg : ResourceConfig.t) :
  ∃ properties,
    json_get "properties" (ResourceConfig.get_parameter_schema cfg)
      = Some (JObj properties)
    ∧ NoDup (dict_keys properties)
    ∧ ∀ n, n ∈ dict_keys properties
           ↔ n ∈ map ResourceParameter.name (ResourceConfig.resource_parameters cfg).
Proof.
  destruct (ResourceConfig.resource_parameters cfg) as [|p ps] eqn:E.
  - exists []. unfold ResourceConfig.get_parameter_schema. rewrite E.
    split; [done |]. split; [constructor | done].
  - exists (Schema.loop (p :: ps)).1.
    rewrite schema_with_parameters, E by by rewrite E.
    split; [done |]. unfold Schema.loop. split.
    + apply loop_keys_NoDup. constructor.
    + intros n. rewrite loop_keys_elem. cbn [fst dict_keys map].
      rewrite elem_of_nil. tauto.
Qed.

(** X6: the entry of [properties] under a name is the schema of the last
    parameter that declares the name; an earlier declaration of the same
    name is overwritten. *)
Theorem schema_property_of_last (cfg : ResourceConfig.t)
    (before : list ResourceParameter.t) (p : ResourceParameter.t)
    (after : list ResourceParameter.t) :
  ResourceConfig.resource_parameters cfg = before ++ p :: after →
  ResourceParameter.name p ∉ map ResourceParameter.name after →
  ∃ properties,
    json_get "properties" (ResourceConfig.get_parameter_schema cfg)
      = Some (JObj properties)
    ∧ dict_get (ResourceParameter.name p) properties
      = Some (JObj (Schema.param_schema p)).
Proof.
  intros Hps Hafter.
  exists (Schema.loop (ResourceConfig.resource_parameters cfg)).1.
  rewrite schema_with_parameters by (rewrite Hps; by destruct before).
  split; [done |]. unfold Schema.loop. rewrite Hps. by apply loop_get_last.
Qed.

Lemma schema_required_in_order_twice :
  json_get "required" (ResourceConfig.get_parameter_schema Sample2.twice)
  = Some (JList [JStr "id"; JStr "mode"; JStr "id"]).
Proof. apply (schema_required_in_order Sample2.twice). discriminate. Defined.

Lemma schema_property_of_last_twice :
  ∃ properties,
    json_get "properties" (ResourceConfig.get_parameter_schema Sample2.twice)
      = Some (JObj properties)
    ∧ dict_get "id" properties
      = Some (JObj [("description", JStr "second"); ("type", JStr "string")]).
Proof.
  apply (schema_property_of_last Sample2.twice
           [ResourceParameter.mk "id" "first" (AllowedTag "number");
            ResourceParameter.mk "mode" "" (AllowedList ["fast"; "slow"])]
           (ResourceParameter.mk "id" "second" (AllowedTag "anything")) []).
  - reflexivity.
  - apply (bool_decide_unpack _). vm_compute. exact I.
Defined.

Example schema_twice :
  ResourceConfig.get_parameter_schema Sample2.twice
  = JObj [("type", JStr "object");
          ("properties",
            JObj [("id", JObj [("description", JStr "second"); ("type", JStr "string")]);
                  ("mode", JObj [("description", JStr ""); ("type", JStr "string");
                                 ("enum", JList [JStr "fast"; JStr "slow"])])]);
          ("required", JList [JStr "id"; JStr "mode"; JStr "id"])].
Proof. reflexivity. Qed.

(** X7: the schema of one parameter keeps its description; an explicit list
    of allowed values gives a string type with that list as [enum]; a tag
    gives no [enum], the type [number] or [boolean] exactly for those two
    tags and the type [string] for every other tag. *)
Theorem param_schema_shape (param : ResourceParameter.t) :
  dict_get "description" (Schema.param_schema param)
    = Some (JStr (ResourceParameter.description param))
  ∧ match ResourceParameter.allowed_values param with
    | AllowedList values =>
        dict_get "type" (Schema.param_schema param) = Some (JStr "string")
        ∧ dict_get "enum" (Schema.param_schema param) = Some (JList (map JStr values))
    | AllowedTag tag =>
        dict_get "enum" (Schema.param_schema param) = None
        ∧ dict_get "type" (Schema.param_schema param)
          = Some (JStr (if decide (tag = "number") then "number"
                        else if decide (tag = "boolean") then "boolean"
                        else "string"))
    end.
Proof.
  unfold Schema.param_schema.
  destruct (ResourceParameter.allowed_values param) as [tag|values].
  - destruct (String.eqb_spec tag "string") as [->|?]; [done |].
    destruct (String.eqb_spec tag "number") as [->|?]; [done |].
    destruct (String.eqb_spec tag "boolean") as [->|?]; [done |].
    by rewrite !decide_False by done.
  - done.
Qed.

(** ** MIME types and definitions *)

Lemma dict_get_absent {V} (k : string) (d : list (string * V)) :
  k ∉ dict_keys d → dict_get k d = None.
Proof.
  induction d as [|[k' v] d IH]; [done |].
  cbn [dict_keys map fst dict_get]. intros [Hne Hk]%not_elem_of_cons.
  destruct (String.eqb_spec k' k); [done | by apply IH].
Qed.

Lemma lower_ascii_idemp (c : ascii) :
  PyStr.lower_ascii (PyStr.lower_ascii c) = PyStr.lower_ascii c.
Proof. by destruct c as [[] [] [] [] [] [] [] []]. Qed.

Lemma lower_idemp (s : string) : PyStr.lower (PyStr.lower s) = PyStr.lower s.
Proof.
  induction s as [|c s IH]; [done |].
  cbn [PyStr.lower]. by rewrite lower_ascii_idemp, IH.
Qed.

(** X8: a tag that, lower-cased, is none of the six listed ones gets
    [text/plain]. *)
Theorem mime_type_fallback (cfg : ResourceConfig.t) :
  PyStr.lower (ResourceConfig.type cfg) ∉ ["csv"; "txt"; "json"; "xml"; "html"; "pdf"] →
  ResourceConfig._get_mime_type cfg = "text/plain".
Proof.
  intros Hout. unfold ResourceConfig._get_mime_type.
  by rewrite dict_get_absent.
Qed.

Lemma mime_type_fallback_yaml :
  ResourceConfig._get_mime_type
    (ResourceConfig.mk "r" "" "YAML" PUBLIC "http://h/r" None [] [])
  = "text/plain".
Proof.
  apply mime_type_fallback. apply (bool_decide_unpack _). vm_compute. exact I.
Defined.

(** X9: the lookup is blind to the case of ASCII letters: a descriptor and
    the same descriptor with its tag lower-cased have the same MIME type. *)
Theorem mime_type_case (name description type : string) (access : ResourceAccessType)
    (uri : string) (function : option string)
    (resource_parameters : list ResourceParameter.t) (extra : list (string * pyval)) :
  ResourceConfig._get_mime_type
    (ResourceConfig.mk name description (PyStr.lower type) access uri function
       resource_parameters extra)
  = ResourceConfig._get_mime_type
      (ResourceConfig.mk name description type access uri function
         resource_parameters extra).
Proof. unfold ResourceConfig._get_mime_type. cbn. by rewrite lower_idemp. Qed.

Example mime_type_mixed_case :
  ResourceConfig._get_mime_type
    (ResourceConfig.mk "r" "" "JsOn" PUBLIC "http://h/r" None [] [])
  = "application/json".
Proof. reflexivity. Qed.

Lemma to_mcp_def_name (cfg : ResourceConfig.t) :
  json_get "name" (ResourceConfig.to_mcp_def cfg) = Some (JStr (ResourceConfig.name cfg)).
Proof.
  unfold ResourceConfig.to_mcp_def.
  by destruct (ResourceConfig.resource_parameters cfg).
Qed.

(** X10: the definition of a descriptor carries its name, description, URI
    and MIME type, and carries a [parameters] entry, the derived schema,
    exactly when the descriptor declares a parameter. *)
Theorem to_mcp_def_entries (cfg : ResourceConfig.t) :
  json_get "name" (ResourceConfig.to_mcp_def cfg) = Some (JStr (ResourceConfig.name cfg))
  ∧ json_get "description" (ResourceConfig.to_mcp_def cfg)
    = Some (JStr (ResourceConfig.description cfg))
  ∧ json_get "uri" (ResourceConfig.to_mcp_def cfg) = Some (JStr (ResourceConfig.uri cfg))
  ∧ json_get "mimeType" (ResourceConfig.to_mcp_def cfg)
    = Some (JStr (ResourceConfig._get_mime_type cfg))
  ∧ json_get "parameters" (ResourceConfig.to_mcp_def cfg)
    = match ResourceConfig.resource_parameters cfg with
      | [] => None
      | _ :: _ => Some (ResourceConfig.get_parameter_schema cfg)
      end.
Proof.
  unfold ResourceConfig.to_mcp_def.
  by destruct (ResourceConfig.resource_parameters cfg).
Qed.

(** X11: on either provider, [get_resources] gives one definition per
    descriptor, in declaration order: the names of the definitions are the
    names of the descriptors. *)
Theorem get_resources_in_order :
  (∀ self, map (json_get "name") (HttpResource.get_resources self)
           = map (λ res, Some (JStr (ResourceConfig.name res)))
               (HttpResource.resource_instances self))
  ∧ (∀ self, map (json_get "name") (ExamplePrivateResources.get_resources self)
             = map (λ res, Some (JStr (ResourceConfig.name res)))
                 (ExamplePrivateResources.resource_instances self)).
Proof.
  split; intros self.
  - unfold HttpResource.get_resources. rewrite map_map. apply map_ext.
    apply to_mcp_def_name.
  - unfold ExamplePrivateResources.get_resources. rewrite map_map. apply map_ext.
    apply to_mcp_def_name.
Qed.

(** ** The HTTP provider's fetch, path by path *)


(** X12: when the URL passes the scheme check and the upstream answers with
    status 200, the fetch returns the body as it is and has issued exactly
    one request, to the substituted URL. *)
Theorem fetch_returns_body (net : upstream) (self : HttpResource.t)
    (resource_config : ResourceConfig.t) (parameters : option params)
    (l : log) (r : response) :
  PyStr.startswith_any (HttpResource.target_url resource_config parameters)
    ["http://"; "https://"] = true →
  net l (HttpResource.target_url resource_config parameters) = Ok r →
  status_code r = 200 →
  HttpResource._fetch_http_content net self resource_config parameters l
  = (Ok (text r), l ++ [HttpResource.target_url resource_config parameters]).
Proof. apply fetch_status_200. Qed.

Lemma fetch_returns_body_item :
  HttpResource._fetch_http_content (Sample.answering 200 "seven")
    (Sample.http [Sample.item]) Sample.item
    (Some [("scheme", PStr "https"); ("id", PInt 7)]) ["http://h/earlier"]
  = (Ok "seven", ["http://h/earlier"; "https://h/items/7"]).
Proof.
  apply (fetch_returns_body (Sample.answering 200 "seven") (Sample.http [Sample.item])
           Sample.item (Some [("scheme", PStr "https"); ("id", PInt 7)])
           ["http://h/earlier"] (mk_response 200 "seven"));
    reflexivity.
Defined.



(** X15: a request error of the client is reported as the transport error,
    which names the URL and the client's message. *)
Theorem fetch_transport_error (net : upstream) (self : HttpResource.t)
    (resource_config : ResourceConfig.t) (parameters : option params)
    (l : log) (msg : string) :
  PyStr.startswith_any (HttpResource.target_url resource_config parameters)
    ["http://"; "https://"] = true →
  net l (HttpResource.target_url resource_config parameters) = Raise (RequestError msg) →
  (HttpResource._fetch_http_content net self resource_config parameters l).1
  = Raise (ValueError ("Failed to fetch resource from "
                         +:+ HttpResource.target_url resource_config parameters
                         +:+ ": " +:+ msg)).
Proof. intros Hscheme Hnet. by rewrite (fetch_request_error _ _ _ _ l msg). Qed.

Lemma fetch_transport_error_report :
  (HttpResource._fetch_http_content Sample2.unreachable
     (Sample.http [Sample.report]) Sample.report None []).1
  = Raise (ValueError "Failed to fetch resource from http://h/report: connection refused").
Proof.
  apply (fetch_transport_error Sample2.unreachable (Sample.http [Sample.report])
           Sample.report None [] "connection refused"); reflexivity.
Defined.



(** An answer with a status other than 200 reaches the caller as the
    unexpected error whose message wraps the status message: both name the
    URL and the inner one the status code. *)
Lemma fetch_status_wrapped (net : upstream) (self : HttpResource.t)
    (resource_config : ResourceConfig.t) (parameters : option params)
    (l : log) (r : response) :
  PyStr.startswith_any (HttpResource.target_url resource_config parameters)
    ["http://"; "https://"] = true →
  net l (HttpResource.target_url resource_config parameters) = Ok r →
  status_code r ≠ 200 →
  (HttpResource._fetch_http_content net self resource_config parameters l).1
  = Raise (ValueError
      ("Unexpected error fetching "
         +:+ HttpResource.target_url resource_config parameters
         +:+ ": " +:+ "HTTP error " +:+ PyStr.of_int (status_code r)
         +:+ " when fetching " +:+ HttpResource.target_url resource_config parameters)).
Proof. intros Hscheme Hnet Hstatus. by rewrite (fetch_status_other _ _ _ _ l r). Qed.

Lemma fetch_status_wrapped_500 :
  (HttpResource._fetch_http_content (Sample.answering 500 "oops")
     (Sample.http [Sample.report]) Sample.report None []).1
  = Raise (ValueError
      "Unexpected error fetching http://h/report: HTTP error 500 when fetching http://h/report").
Proof.
  apply (fetch_status_wrapped (Sample.answering 500 "oops") (Sample.http [Sample.report])
           Sample.report None [] (mk_response 500 "oops")); [reflexivity | reflexivity |].
  vm_compute. discriminate.
Defined.

(** An empty parameters mapping is treated like no mapping: no
    substitution runs, and the descriptor's URI is requested as written,
    placeholders included. *)
Lemma fetch_empty_parameters (net : upstream) (self : HttpResource.t)
    (resource_config : ResourceConfig.t) :
  HttpResource.target_url resource_config (Some []) = ResourceConfig.uri resource_config
  ∧ HttpResource.target_url resource_config None = ResourceConfig.uri resource_config
  ∧ HttpResource._fetch_http_content net self resource_config (Some [])
    = HttpResource._fetch_http_content net self resource_config None.
Proof. done. Qed.

(** ** The function-dispatch provider, path by path *)

(** X17: a descriptor whose handler name is absent or the empty string
    fails with the no-function error, which names the descriptor; no
    attribute of the provider is consulted. *)
Theorem dispatch_requires_function (self : ExamplePrivateResources.t)
    (resource_config : ResourceConfig.t) (parameters : option params) :
  ResourceConfig.function resource_config = None
  ∨ ResourceConfig.function resource_config = Some "" →
  ExamplePrivateResources._get_mcp_content self resource_config parameters
  = raise (ValueError ("No function specified for mcp_server resource '"
                         +:+ ResourceConfig.name resource_config +:+ "'")).
Proof. apply dispatch_no_function. Qed.

Lemma dispatch_requires_function_empty :
  ExamplePrivateResources._get_mcp_content (Sample.private [])
    (descriptor "blank" "mcp://blank" (Some "") []) None
  = raise (ValueError "No function specified for mcp_server resource 'blank'").
Proof.
  apply (dispatch_requires_function (Sample.private [])
           (descriptor "blank" "mcp://blank" (Some "") []) None).
  right. reflexivity.
Defined.

(** X18: a handler name that is bound to nothing on the instance fails with
    the function-not-found error, which names the handler. *)
Theorem dispatch_unknown_function (self : ExamplePrivateResources.t)
    (resource_config : ResourceConfig.t) (parameters : option params)
    (function_name : string) :
  ResourceConfig.function resource_config = Some function_name →
  function_name ≠ "" →
  ExamplePrivateResources.attrs self !! function_name = None →
  ExamplePrivateResources._get_mcp_content self resource_config parameters
  = raise (ValueError ("Function '" +:+ function_name
                         +:+ "' not found in resource class")).
Proof. apply dispatch_unbound. Qed.

Lemma dispatch_unknown_function_unbound :
  ExamplePrivateResources._get_mcp_content (Sample.private [Sample.unbound])
    Sample.unbound None
  = raise (ValueError "Function 'no_such_function' not found in resource class").
Proof.
  apply (dispatch_unknown_function (Sample.private [Sample.unbound]) Sample.unbound None
           "no_such_function"); [reflexivity | discriminate | reflexivity].
Defined.

(** X19: a handler name bound to a coroutine method is called with the
    given mapping, or with the empty mapping when none or an empty one is
    given, and the fetch is that call. *)
Theorem dispatch_calls_method (self : ExamplePrivateResources.t)
    (resource_config : ResourceConfig.t) (parameters : option params)
    (function_name : string) (method : params → M string) :
  ResourceConfig.function resource_config = Some function_name →
  function_name ≠ "" →
  ExamplePrivateResources.attrs self !! function_name
    = Some (ExamplePrivateResources.Coroutine method) →
  ExamplePrivateResources._get_mcp_content self resource_config parameters
  = method (match parameters with Some (p :: ps) => p :: ps | _ => [] end).
Proof. apply dispatch_coroutine. Qed.

Lemma dispatch_calls_method_sample :
  ExamplePrivateResources._get_mcp_content (Sample.private [Sample.sample])
    Sample.sample None
  = ExamplePrivateResources._sample_parameterized_resource [].
Proof.
  apply (dispatch_calls_method (Sample.private [Sample.sample]) Sample.sample None
           "_sample_parameterized_resource"
           ExamplePrivateResources._sample_parameterized_resource);
    [reflexivity | discriminate | reflexivity].
Defined.

(** A handler name bound to a value that is not callable passes the
    existence test, and the fetch fails with the [TypeError] of calling
    that value. *)
Lemma dispatch_calls_any_attribute (self : ExamplePrivateResources.t)
    (resource_config : ResourceConfig.t) (parameters : option params)
    (function_name type_name : string) :
  ResourceConfig.function resource_config = Some function_name →
  function_name ≠ "" →
  ExamplePrivateResources.attrs self !! function_name
    = Some (ExamplePrivateResources.NotCallable type_name) →
  ExamplePrivateResources._get_mcp_content self resource_config parameters
  = raise (TypeError ("'" +:+ type_name +:+ "' object is not callable")).
Proof. apply dispatch_not_callable. Qed.

Lemma dispatch_calls_any_attribute_list :
  ExamplePrivateResources._get_mcp_content
    (Sample.private [descriptor "r" "mcp://r" (Some "resource_instances") []])
    (descriptor "r" "mcp://r" (Some "resource_instances") []) (Some [])
  = raise (TypeError "'list' object is not callable").
Proof.
  apply (dispatch_calls_any_attribute
           (Sample.private [descriptor "r" "mcp://r" (Some "resource_instances") []])
           (descriptor "r" "mcp://r" (Some "resource_instances") []) (Some [])
           "resource_instances" "list");
    [reflexivity | discriminate | reflexivity].
Defined.

(** ** The sample handler *)

Lemma sample_of_client (parameters : params) (s : string) :
  dict_get "client" parameters = Some (PStr s) →
  ExamplePrivateResources._sample_parameterized_resource parameters
  = if String.eqb (PyStr.lower s) "acme" then ret "This is the roadrunner client"
    else if String.eqb (PyStr.lower s) "bigrock" then ret "We make tools to smash birds"
    else ret ("Unknown client: " +:+ PyStr.lower s
                +:+ ". Available clients: acme, bigrock").
Proof.
  intros Hclient.
  unfold ExamplePrivateResources._sample_parameterized_resource,
    ExamplePrivateResources.client_of.
  rewrite Hclient. unfold bind, ret.
  destruct (String.eqb _ "acme"); [done |].
  by destruct (String.eqb _ "bigrock").
Qed.



(** X21: when [client] is a string or is missing, the sample handler
    returns a text and issues no request; a missing [client] is answered
    like the empty string. *)
Theorem sample_handler_answers (parameters : params) (l : log) :
  (dict_get "client" parameters = None
   ∨ ∃ s, dict_get "client" parameters = Some (PStr s)) →
  (∃ answer,
     ExamplePrivateResources._sample_parameterized_resource parameters l
     = (Ok answer, l))
  ∧ (dict_get "client" parameters = None →
     ExamplePrivateResources._sample_parameterized_resource parameters l
     = (Ok "Unknown client: . Available clients: acme, bigrock", l)).
Proof.
  intros Hclient. split.
  - destruct Hclient as [Hnone | [s Hs]].
    + unfold ExamplePrivateResources._sample_parameterized_resource,
        ExamplePrivateResources.client_of.
      rewrite Hnone. cbn. eauto.
    + rewrite (sample_of_client _ s Hs).
      destruct (String.eqb _ "acme"); [cbn; eauto |].
      destruct (String.eqb _ "bigrock"); cbn; eauto.
  - intros Hnone.
    unfold ExamplePrivateResources._sample_parameterized_resource,
      ExamplePrivateResources.client_of.
    by rewrite Hnone.
Qed.

Lemma sample_handler_answers_missing :
  ExamplePrivateResources._sample_parameterized_resource [("other", PInt 1)] ["http://h/x"]
  = (Ok "Unknown client: . Available clients: acme, bigrock", ["http://h/x"]).
Proof.
  apply (sample_handler_answers [("other", PInt 1)] ["http://h/x"]).
  - left. reflexivity.
  - reflexivity.
Defined.

(** X22: when [client] is bound to a value that is not a string, the sample
    handler fails with an [AttributeError] and returns no text. *)
Theorem sample_handler_needs_string (parameters : params) (value : pyval) (l : log) :
  dict_get "client" parameters = Some value →
  (∀ s, value ≠ PStr s) →
  ∃ msg,
    ExamplePrivateResources._sample_parameterized_resource parameters l
    = (Raise (AttributeError msg), l).
Proof.
  intros Hclient Hvalue.
  unfold ExamplePrivateResources._sample_parameterized_resource,
    ExamplePrivateResources.client_of.
  rewrite Hclient. destruct value as [s|n|b|]; cbn; eauto.
  by destruct (Hvalue s).
Qed.

Lemma sample_handler_needs_string_int :
  ∃ msg,
    ExamplePrivateResources._sample_parameterized_resource [("client", PInt 7)] []
    = (Raise (AttributeError msg), []).
Proof.
  apply (sample_handler_needs_string [("client", PInt 7)] (PInt 7) []).
  - reflexivity.
  - discriminate.
Defined.

(** X23: on a provider built from a dict configuration, a name whose first
    descriptor is bound to the sample handler is answered by the sample
    handler on the given mapping, or on the empty one when none is
    given. *)
Theorem sample_resource_content (name description : string)
    (before : list ResourceConfig.t) (res : ResourceConfig.t)
    (after : list ResourceConfig.t) (resource_name : string)
    (parameters : option params) :
  resource_name ∉ map ResourceConfig.name before →
  ResourceConfig.name res = resource_name →
  ResourceConfig.function res = Some "_sample_parameterized_resource" →
  ExamplePrivateResources.get_resource_content
    (ExamplePrivateResources.init name description (before ++ res :: after))
    resource_name parameters
  = ExamplePrivateResources._sample_parameterized_resource (or_empty parameters).
Proof.
  intros Hbefore Hname Hfunction.
  unfold ExamplePrivateResources.get_resource_content.
  cbn [ExamplePrivateResources.init ExamplePrivateResources.resource_instances].
  rewrite find_resource_first by done.
  by apply (dispatch_coroutine _ _ _ "_sample_parameterized_resource").
Qed.

Lemma sample_resource_content_bigrock :
  ExamplePrivateResources.get_resource_content
    (Sample.private [Sample.silent; Sample.sample; Sample.sample_again])
    "sample" (Some [("client", PStr "BigRock")]) []
  = (Ok "We make tools to smash birds", []).
Proof.
  refine (f_equal (λ m : M string, m [])
            (sample_resource_content "example_private_resources"
               "Example private resource types"
               [Sample.silent] Sample.sample [Sample.sample_again] "sample"
               (Some [("client", PStr "BigRock")]) _ eq_refl eq_refl)).
  apply (bool_decide_unpack _). vm_compute. exact I.
Defined.

(** ** Construction from a dict configuration *)

Section ConstructionFacts.
Import Construction.

Lemma for_each_map_built {A B} (f : A → outcome B) (g : B → A) (l : list B) :
  (∀ x, x ∈ l → f (g x) = Built x) → for_each f (map g l) = Built l.
Proof.
  induction l as [|x l IH]; intros Hall; [done |].
  cbn [map for_each]. rewrite Hall by left. cbn [and_then].
  rewrite IH; [done |]. intros y Hy. apply Hall. by right.
Qed.

Lemma for_each_app_fails {A B} (f : A → outcome B) (before : list A) (item : A)
    (after : list A) (built : list B) (e : error) :
  for_each f before = Built built → f item = Fails e →
  for_each f (before ++ item :: after) = Fails e.
Proof.
  revert built. induction before as [|x before IH]; intros built Hbefore Hitem.
  - cbn [app for_each]. by rewrite Hitem.
  - cbn [app for_each] in *. destruct (f x) as [b|e']; [| done].
    cbn [and_then] in *. destruct (for_each f before) as [bs|e'] eqn:E; [| done].
    by rewrite (IH bs).
Qed.

Lemma for_each_Forall2 {A B} (f : A → outcome B) (items : list A) (built : list B) :
  for_each f items = Built built → Forall2 (λ item b, f item = Built b) items built.
Proof.
  revert built. induction items as [|x items IH]; intros built Hbuilt.
  - injection Hbuilt as <-. constructor.
  - cbn [for_each] in Hbuilt. destruct (f x) as [b|e] eqn:Ex; [| done].
    cbn [and_then] in Hbuilt. destruct (for_each f items) as [bs|e]; [| done].
    injection Hbuilt as <-. constructor; [done | by apply IH].
Qed.

Lemma parameter_payload_built (param : ResourceParameter.t) :
  ResourceParameter_of (parameter_payload param) = Built param.
Proof.
  destruct param as [name description [tag|values]]; cbn; [done |].
  by rewrite (for_each_map_built (str_field "ResourceParameter") OStr values).
Qed.

Lemma descriptor_payload_built (cfg : ResourceConfig.t) :
  ResourceConfig.params cfg = [] →
  resource_config_of (descriptor_payload cfg) = Built cfg.
Proof.
  destruct cfg as [name description type access uri function ps extra].
  cbn [ResourceConfig.params]. intros ->.
  unfold resource_config_of, descriptor_payload. cbn.
  rewrite for_each_map_built by (intros; apply parameter_payload_built).
  cbn. by destruct access, function.
Qed.

End ConstructionFacts.

(** X24: a configuration that writes every key of every descriptor out is
    read back as those descriptors, in the order of the payload. *)
Theorem construction_round_trip (name : string) (resources : list ResourceConfig.t) :
  (∀ cfg, cfg ∈ resources → ResourceConfig.params cfg = []) →
  Construction.resource_instances_of
    (Construction.provider_payload name (map Construction.descriptor_payload resources))
  = Construction.Built resources.
Proof.
  intros Hextra. unfold Construction.resource_instances_of, Construction.provider_payload.
  cbn. apply for_each_map_built. intros cfg Hcfg.
  apply descriptor_payload_built. by apply Hextra.
Qed.

Lemma construction_round_trip_samples :
  Construction.resource_instances_of
    (Construction.provider_payload "http_resources"
       (map Construction.descriptor_payload [Sample.report; Sample.item; Sample2.twice]))
  = Construction.Built [Sample.report; Sample.item; Sample2.twice].
Proof.
  apply (construction_round_trip "http_resources"
           [Sample.report; Sample.item; Sample2.twice]).
  intros cfg Hcfg.
  apply elem_of_cons in Hcfg as [-> | Hcfg]; [reflexivity |].
  apply elem_of_cons in Hcfg as [-> | Hcfg]; [reflexivity |].
  apply elem_of_cons in Hcfg as [-> | Hcfg]; [reflexivity |].
  by apply elem_of_nil in Hcfg.
Defined.

Section ConstructionFailures.
Import Construction.

Lemma subscript_built (entries : list (string * pyobj)) (key : string) (v : pyobj) :
  subscript entries key = Built v → dict_get key entries = Some v.
Proof. unfold subscript. by destruct (dict_get key entries) as [v'|]; intros [= ->]. Qed.

Lemma str_field_built (model : string) (v : pyobj) (s : string) :
  str_field model v = Built s → v = OStr s.
Proof. by destruct v; intros [= ->]. Qed.

Lemma access_built (v : pyobj) (access : ResourceAccessType) :
  ResourceAccessType_of v = Built access → v = access_payload access.
Proof.
  destruct v as [|s| |]; cbn; try done.
  destruct (String.eqb_spec s "public") as [->|]; [by intros [= <-] |].
  destruct (String.eqb_spec s "mcp_server") as [->|]; [by intros [= <-] | done].
Qed.

Lemma optional_str_field_built (model : string) (v : pyobj) (o : option string) :
  optional_str_field model v = Built o →
  v = match o with Some s => OStr s | None => ONone end.
Proof. by destruct v; intros [= <-]. Qed.

(** The payload of a provider under [params.resources]. *)
Lemma resources_of_payload (config params : list (string * pyobj)) (resources : pyobj) :
  dict_get "params" config = Some (ODict params) →
  dict_get "resources" params = Some resources →
  resource_instances_of config
  = and_then (iterate resources) (for_each resource_config_of).
Proof.
  intros Hparams Hresources. unfold resource_instances_of, or_dict.
  rewrite Hparams. cbn [default from_option id].
  assert (truth (ODict params) = true) as -> by by destruct params.
  cbn [get]. by rewrite Hresources.
Qed.

End ConstructionFailures.

(** X25: a descriptor is built only from a dict that holds the keys [name],
    [description], [type], [access] and [uri]; the four texts are strings,
    [access] is one of the two literals, and the built descriptor carries
    these values, the handler name under [function] if there is one, and an
    empty [params]. *)
Theorem built_descriptor_fields (resource_config : pyobj) (cfg : ResourceConfig.t) :
  Construction.resource_config_of resource_config = Construction.Built cfg →
  ∃ entries,
    resource_config = ODict entries
    ∧ dict_get "name" entries = Some (OStr (ResourceConfig.name cfg))
    ∧ dict_get "description" entries = Some (OStr (ResourceConfig.description cfg))
    ∧ dict_get "type" entries = Some (OStr (ResourceConfig.type cfg))
    ∧ dict_get "access" entries
      = Some (Construction.access_payload (ResourceConfig.access cfg))
    ∧ dict_get "uri" entries = Some (OStr (ResourceConfig.uri cfg))
    ∧ default ONone (dict_get "function" entries)
      = match ResourceConfig.function cfg with
        | Some function_name => OStr function_name
        | None => ONone
        end
    ∧ ResourceConfig.params cfg = [].
Proof.
  unfold Construction.resource_config_of. intros Hbuilt.
  destruct resource_config as [|s|items|entries]; try done.
  exists entries. split; [done |].
  repeat match type of Hbuilt with
         | Construction.and_then ?m _ = Construction.Built _ =>
             let E := fresh "E" in
             destruct m eqn:E; cbn [Construction.and_then] in Hbuilt;
             [| discriminate Hbuilt]
         end.
  injection Hbuilt as <-. cbn.
  repeat match goal with
         | H : Construction.subscript _ _ = Construction.Built _ |- _ =>
             apply subscript_built in H
         | H : Construction.str_field _ _ = Construction.Built _ |- _ =>
             apply str_field_built in H; subst
         | H : Construction.ResourceAccessType_of _ = Construction.Built _ |- _ =>
             apply access_built in H; subst
         | H : Construction.optional_str_field _ _ = Construction.Built _ |- _ =>
             apply optional_str_field_built in H
         end.
  by repeat split.
Qed.

Lemma built_descriptor_fields_report :
  ∃ entries,
    Construction.descriptor_payload Sample.report = ODict entries
    ∧ dict_get "name" entries = Some (OStr "report")
    ∧ dict_get "description" entries = Some (OStr "")
    ∧ dict_get "type" entries = Some (OStr "txt")
    ∧ dict_get "access" entries = Some (OStr "public")
    ∧ dict_get "uri" entries = Some (OStr "http://h/report")
    ∧ default ONone (dict_get "function" entries) = ONone
    ∧ ResourceConfig.params Sample.report = [].
Proof.
  apply (built_descriptor_fields (Construction.descriptor_payload Sample.report)
           Sample.report).
  reflexivity.
Defined.

(** X26: a construction that succeeds has built one descriptor from each
    entry of [params.resources], in the order of the entries. *)
Theorem built_in_order (config params : list (string * pyobj))
    (entries : list pyobj) (resources : list ResourceConfig.t) :
  dict_get "params" config = Some (ODict params) →
  dict_get "resources" params = Some (OList entries) →
  Construction.resource_instances_of config = Construction.Built resources →
  Forall2 (λ entry cfg, Construction.resource_config_of entry = Construction.Built cfg)
    entries resources.
Proof.
  intros Hparams Hresources.
  rewrite (resources_of_payload _ _ _ Hparams Hresources).
  apply for_each_Forall2.
Qed.

Lemma built_in_order_samples :
  Forall2 (λ entry cfg, Construction.resource_config_of entry = Construction.Built cfg)
    (map Construction.descriptor_payload [Sample.item; Sample.report])
    [Sample.item; Sample.report].
Proof.
  apply (built_in_order
           (Construction.provider_payload "http_resources"
              (map Construction.descriptor_payload [Sample.item; Sample.report]))
           [("resources", OList (map Construction.descriptor_payload
                                   [Sample.item; Sample.report]))]);
    reflexivity.
Defined.

(** X27: a configuration without [params], with a [params] that is [None]
    or empty, or with a [params] dict that has no [resources], builds a
    provider with no descriptor. *)
Theorem construction_without_resources (config : list (string * pyobj)) :
  Construction.truth (default ONone (dict_get "params" config)) = false
  ∨ (∃ params, dict_get "params" config = Some (ODict params)
               ∧ dict_get "resources" params = None) →
  Construction.resource_instances_of config = Construction.Built [].
Proof.
  unfold Construction.resource_instances_of, Construction.or_dict.
  intros [Hfalse | (params & Hparams & Hresources)].
  - by rewrite Hfalse.
  - rewrite Hparams. cbn [default from_option id].
    destruct (Construction.truth (ODict params)); cbn; [by rewrite Hresources | done].
Qed.

Lemma construction_without_resources_bare :
  Construction.resource_instances_of [("name", OStr "bare"); ("params", ONone)]
  = Construction.Built [].
Proof.
  apply (construction_without_resources [("name", OStr "bare"); ("params", ONone)]).
  left. reflexivity.
Defined.

(** X28: the construction builds no partial provider: it fails with the
    exception of the first entry of [params.resources] that fails, whatever
    the entries after it. *)
Theorem construction_first_failure (config params : list (string * pyobj))
    (before : list pyobj) (entry : pyobj) (after : list pyobj)
    (built : list ResourceConfig.t) (e : Construction.error) :
  dict_get "params" config = Some (ODict params) →
  dict_get "resources" params = Some (OList (before ++ entry :: after)) →
  Construction.for_each Construction.resource_config_of before = Construction.Built built →
  Construction.resource_config_of entry = Construction.Fails e →
  Construction.resource_instances_of config = Construction.Fails e.
Proof.
  intros Hparams Hresources Hbefore Hentry.
  rewrite (resources_of_payload _ _ _ Hparams Hresources).
  cbn [Construction.iterate Construction.and_then].
  by apply (for_each_app_fails _ _ _ _ built).
Qed.

Lemma construction_first_failure_string :
  Construction.resource_instances_of
    (Construction.provider_payload "p"
       [Construction.descriptor_payload Sample.report; OStr "report";
        Construction.descriptor_payload Sample.item])
  = Construction.Fails (Construction.NoGet "str").
Proof.
  apply (construction_first_failure
           (Construction.provider_payload "p"
              [Construction.descriptor_payload Sample.report; OStr "report";
               Construction.descriptor_payload Sample.item])
           [("resources", OList [Construction.descriptor_payload Sample.report;
                                 OStr "report";
                                 Construction.descriptor_payload Sample.item])]
           [Construction.descriptor_payload Sample.report] (OStr "report")
           [Construction.descriptor_payload Sample.item] [Sample.report]);
    reflexivity.
Defined.




